(** * jissue: a shallow embedding of the Jira tooling and its properties

    The development follows three Python modules of the package (the
    launcher, [cli.py], takes no part in the properties stated here):

    - [templates.py]   -> [Module Templates]   (the template store)
    - [jira_client.py] -> [Module JiraClient]  (the adapter around the
      [jira] library client)
    - [server.py]      -> [Module Server]      (the tool dispatcher)

    Python values are modelled as follows.

    - [str] is [string].  The case functions and the whitespace test are
      those of Python on ASCII text (code points below 128), which is the
      range the model covers: a statement whose truth rests on the case or
      on the whitespace of an arbitrary string takes [ascii_only] as a
      hypothesis, or is worded for ASCII letters.
    - A [dict] whose iteration order is observable (the template tables)
      is an insertion-ordered association list with unique keys
      ([Module PyDict]); a [dict] that is only probed by key (the
      configuration, the payload of a remote call, the handler table) is a
      [gmap].
    - Exceptions are values of type [exn]; code that may raise and that
      talks to the remote system runs in a state-and-error monad whose
      state is the log of calls made to the [jira] library. *)

From Stdlib Require Import String Ascii List ZArith Lia Bool.
From stdpp Require Import base option list strings gmap fin_maps pretty.

Local Open Scope string_scope.
Local Open Scope list_scope.
Local Open Scope Z_scope.

(* ===================================================================== *)
(** ** Python [str] operations (ASCII range) *)
(* ===================================================================== *)

Module PyStr.

Definition code (c : ascii) : N := N_of_ascii c.

  (** [c.isupper()] and [c.islower()] for an ASCII character. *)
Definition is_upper (c : ascii) : bool :=
    (65 <=? code c)%N && (code c <=? 90)%N.

Definition is_lower (c : ascii) : bool :=
    (97 <=? code c)%N && (code c <=? 122)%N.

Definition lower_char (c : ascii) : ascii :=
    if is_upper c then ascii_of_N (code c + 32) else c.

Definition upper_char (c : ascii) : ascii :=
    if is_lower c then ascii_of_N (code c - 32) else c.

  (** [s.lower()], [s.upper()] *)
Fixpoint lower (s : string) : string :=
    match s with
    | EmptyString => EmptyString
    | String c r => String (lower_char c) (lower r)
    end.

Fixpoint upper (s : string) : string :=
    match s with
    | EmptyString => EmptyString
    | String c r => String (upper_char c) (upper r)
    end.

  (** [s.capitalize()]: first character upper-cased, the rest lower-cased. *)
Definition capitalize (s : string) : string :=
    match s with
    | EmptyString => EmptyString
    | String c r => String (upper_char c) (lower r)
    end.

  (** The characters [str.strip()] removes when called without argument:
      TAB, LF, VT, FF, CR, FS, GS, RS, US and the space. *)
Definition is_space (c : ascii) : bool :=
    ((9 <=? code c)%N && (code c <=? 13)%N)
    || ((28 <=? code c)%N && (code c <=? 32)%N).

Fixpoint lstrip (s : string) : string :=
    match s with
    | EmptyString => EmptyString
    | String c r => if is_space c then lstrip r else s
    end.

Fixpoint rstrip (s : string) : string :=
    match s with
    | EmptyString => EmptyString
    | String c r =>
        match rstrip r with
        | EmptyString => if is_space c then EmptyString else String c EmptyString
        | r' => String c r'
        end
    end.

  (** [s.strip()] *)
Definition strip (s : string) : string := rstrip (lstrip s).

  (** Truth value of a string: [bool(s)]. *)
Definition truthy (s : string) : bool :=
    match s with EmptyString => false | String _ _ => true end.

  (** Truth value of an optional string ([str | None]). *)
Definition truthy_opt (o : option string) : bool :=
    match o with None => false | Some s => truthy s end.

  (** [sep.join(parts)] *)
Fixpoint join (sep : string) (parts : list string) : string :=
    match parts with
    | [] => EmptyString
    | [p] => p
    | p :: rest => p +:+ sep +:+ join sep rest
    end.

  (** [s[:n]] for [n >= 0]. *)
Fixpoint take (n : nat) (s : string) : string :=
    match n, s with
    | O, _ => EmptyString
    | _, EmptyString => EmptyString
    | S n', String c r => String c (take n' r)
    end.

  (** The line feed, written [\n] in the source. *)
Definition nl : string := String (ascii_of_N 10) EmptyString.

  (** [str(n)] for an integer. *)
Definition str_int (n : Z) : string := pretty n.

  (** Every character of the string is whitespace. *)
Fixpoint blank (s : string) : bool :=
    match s with
    | EmptyString => true
    | String c r => is_space c && blank r
    end.

  (** Some character of the string is an upper-case letter. *)
Fixpoint has_upper (s : string) : bool :=
    match s with
    | EmptyString => false
    | String c r => is_upper c || has_upper r
    end.

(** Every character of the string is in the ASCII range (code below
    128).  On such strings the functions above are Python's; a theorem
    whose truth rests on the case or the whitespace of an arbitrary string
    takes this as a hypothesis. *)
Fixpoint ascii_only (s : string) : bool :=
  match s with
  | EmptyString => true
  | String c r => (code c <? 128)%N && ascii_only r
  end.

(** The 26 letters by table, written without the character codes. *)
Definition small_letters : string := "abcdefghijklmnopqrstuvwxyz".
Definition capital_letters : string := "ABCDEFGHIJKLMNOPQRSTUVWXYZ".

(** The character standing in [into] at the place [c] has in [from];
    [c] itself when it does not occur in [from]. *)
Fixpoint translate (from into : string) (c : ascii) : ascii :=
  match from, into with
  | String f from', String t into' =>
      if Ascii.eqb c f then t else translate from' into' c
  | _, _ => c
  end.

(** The capital of a small letter and the small letter of a capital;
    every other character is left as it is. *)
Definition capital_of (c : ascii) : ascii :=
  translate small_letters capital_letters c.

Definition small_of (c : ascii) : ascii :=
  translate capital_letters small_letters c.

(** A string with every capital replaced by its small letter. *)
Fixpoint all_small (s : string) : string :=
  match s with
  | EmptyString => EmptyString
  | String c r => String (small_of c) (all_small r)
  end.

(** A string capitalized: the first character replaced by its capital,
    every later capital by its small letter. *)
Definition first_capital_rest_small (s : string) : string :=
  match s with
  | EmptyString => EmptyString
  | String c r => String (capital_of c) (all_small r)
  end.

End PyStr.

(* ===================================================================== *)
(** ** Python [dict] with observable insertion order *)
(* ===================================================================== *)

Module PyDict.
Section Ops.
Context {V : Type}.

Definition dict := list (string * V).

(** [d.get(k)] *)
Fixpoint get (k : string) (d : dict) : option V :=
  match d with
  | [] => None
  | (k', v) :: r => if decide (k = k') then Some v else get k r
  end.

(** [k in d] *)
Definition mem (k : string) (d : dict) : bool :=
  match get k d with Some _ => true | None => false end.

(** [d[k] = v]: an existing key keeps its position, a new key goes last. *)
Fixpoint set (k : string) (v : V) (d : dict) : dict :=
  match d with
  | [] => [(k, v)]
  | (k', v') :: r =>
      if decide (k = k') then (k', v) :: r else (k', v') :: set k v r
  end.

(** [d.update(e)]: the items of [e] are assigned in order. *)
Definition update (d e : dict) : dict :=
  fold_left (fun acc kv => set (fst kv) (snd kv) acc) e d.

(** [list(d.keys())] *)
Definition keys (d : dict) : list string := fst <$> d.

(** [del d[k]] (for an absent key the dictionary is left as it is). *)
Fixpoint del (k : string) (d : dict) : dict :=
  match d with
  | [] => []
  | (k', v) :: r => if decide (k = k') then r else (k', v) :: del k r
  end.

End Ops.
Arguments dict : clear implicits.
End PyDict.

(* ===================================================================== *)
(** ** templates.py: the template store *)
(* ===================================================================== *)

Module Templates.
Import PyStr PyDict.

(** The [*.md] files of the custom template directory, in the order
    [glob] yields them: the stem of each file name and, when the file can
    be opened and read, its content ([None] when reading raises). *)
Definition md_files := list (string * option string).

(** [TemplateManager]: the two tables kept by an instance. *)
Record TemplateManager := {
  default_templates : dict string;
  custom_templates : dict string
}.

Definition _get_default_templates : dict string :=
  [ ("story", "**As a** [user type]
**I want** [goal]
**So that** [benefit]

## Acceptance Criteria
- [ ] Criteria 1
- [ ] Criteria 2
- [ ] Criteria 3

## Additional Notes
[Any additional context or notes]
");
    ("bug", "## Description
[Clear description of the bug]

## Steps to Reproduce
1. Step 1
2. Step 2
3. Step 3

## Expected Behavior
[What should happen]

## Actual Behavior
[What actually happens]

## Environment
- Browser/Device:
- Version:
- OS:

## Additional Context
[Screenshots, logs, or other relevant information]
");
    ("task", "## Objective
[What needs to be done]

## Details
[Detailed description of the task]

## Checklist
- [ ] Item 1
- [ ] Item 2
- [ ] Item 3

## Dependencies
[Any dependencies or blockers]
");
    ("spike", "## Research Question
[What do we need to investigate?]

## Context
[Why is this research needed?]

## Goals
- Goal 1
- Goal 2

## Expected Outcomes
[What deliverables/findings are expected?]

## Time Box
[Time limit for this spike]
");
    ("epic", "## Vision
[High-level description of what this epic aims to achieve]

## Goals
- Goal 1
- Goal 2

## User Stories
[List of user stories that will be part of this epic]

## Success Metrics
[How will we measure success?]

## Timeline
[Expected timeline or milestones]
") ].

(** The loop of [_load_custom_templates]: each file is stored under its
    stem as found on disk; the [try] encloses the whole loop, so the first
    file that cannot be read ends the loading and what was stored so far
    is returned. *)
Fixpoint load_loop (templates : dict string) (files : md_files) : dict string :=
  match files with
  | [] => templates
  | (issue_type, Some content) :: rest =>
      load_loop (set issue_type content templates) rest
  | (_, None) :: _ => templates
  end.

Definition _load_custom_templates (files : md_files) : dict string :=
  load_loop [] files.

(** [TemplateManager.__init__]; the argument is [None] when the custom
    directory does not exist. *)
Definition init (custom_dir : option md_files) : TemplateManager :=
  {| default_templates := _get_default_templates;
     custom_templates :=
       match custom_dir with
       | Some files => _load_custom_templates files
       | None => []
       end |}.

Definition get_template (self : TemplateManager) (issue_type : string)
  : option string :=
  let issue_type := lower issue_type in
  if mem issue_type (custom_templates self)
  then get issue_type (custom_templates self)
  else get issue_type (default_templates self).

Definition get_all_templates (self : TemplateManager) : dict string :=
  let all_templates := default_templates self in
  update all_templates (custom_templates self).

Definition list_templates (self : TemplateManager) : list string :=
  keys (get_all_templates self).

(** Every file of a listing can be read. *)
Definition all_readable (files : md_files) : Prop :=
  Forall (fun f => is_Some (snd f)) files.

(** The manager [tm] with the custom entry stored under [stem] taken out;
    used to say that an entry plays no part in a lookup. *)
Definition without_custom (stem : string) (tm : TemplateManager) : TemplateManager :=
  {| default_templates := default_templates tm;
     custom_templates := del stem (custom_templates tm) |}.

(** A directory listing in which the file [stem].md, with content
    [content], comes after the files [pre] and before the files [post]. *)
Definition listing (pre : md_files) (stem content : string) (post : md_files)
  : md_files :=
  pre ++ (stem, Some content) :: post.

(** The one-character string U+211D, DOUBLE-STRUCK CAPITAL R: an
    upper-case letter ([str.isupper] holds of it) without a lower-case
    form, which [str.lower] therefore leaves as it is. *)
Definition double_struck_capital_R : string := "ℝ".

End Templates.

(* ===================================================================== *)
(** ** Exceptions and the monad of code that may raise *)
(* ===================================================================== *)

Module Py.
Import PyStr.

(** The exceptions the package meets.  [LibraryError] stands for whatever
    the [jira] library or its transport raises; its argument is the text
    [str(e)] of that exception. *)
Inductive exn :=
| FileNotFoundError (msg : string)
| KeyError (key : string)
| ValueError (msg : string)
| ValidationError (msg : string)
| LibraryError (msg : string)
| Exception (msg : string).

(** The apostrophe and the double quote, as strings. *)
Definition sq : string := String (ascii_of_N 39) EmptyString.
Definition dq : string := String (ascii_of_N 34) EmptyString.

(** [str(e)]; a [KeyError] prints the [repr] of its key. *)
Definition str_exn (e : exn) : string :=
  match e with
  | KeyError key => sq +:+ key +:+ sq
  | FileNotFoundError msg | ValueError msg | ValidationError msg
  | LibraryError msg | Exception msg => msg
  end.

(** A computation over a state [St] that returns a value or raises. *)
Definition M (St A : Type) : Type := St → (exn + A) * St.

Definition ret {St A} (a : A) : M St A := fun s => (inr a, s).

Definition raise {St A} (e : exn) : M St A := fun s => (inl e, s).

Definition bind {St A B} (m : M St A) (k : A → M St B) : M St B :=
  fun s =>
    match m s with
    | (inr a, s') => k a s'
    | (inl e, s') => (inl e, s')
    end.

(** [try: m  except Exception as e: h e] *)
Definition try_except {St A} (m : M St A) (h : exn → M St A) : M St A :=
  fun s =>
    match m s with
    | (inr a, s') => (inr a, s')
    | (inl e, s') => h e s'
    end.

(** [d[k]] on a mapping with string keys. *)
Definition getitem {St V} (d : gmap string V) (k : string) : M St V :=
  match d !! k with
  | Some v => ret v
  | None => raise (KeyError k)
  end.

(** A loop that collects one result per element, in order. *)
Fixpoint for_each {St A B} (f : A → M St B) (l : list A) : M St (list B) :=
  match l with
  | [] => ret []
  | a :: r => bind (f a) (fun b => bind (for_each f r) (fun bs => ret (b :: bs)))
  end.

End Py.

Declare Scope py_scope.
Delimit Scope py_scope with py.
Notation "x <- m ;; k" := (Py.bind m (fun x => k))
  (at level 100, m at next level, right associativity) : py_scope.

(* ===================================================================== *)
(** ** jira_client.py: the adapter around the [jira] library *)
(* ===================================================================== *)

Module JiraClient.
Import PyStr Py.
Local Open Scope py_scope.

(** *** What the [jira] library exchanges with the adapter *)

Record Project := { project_key : string; project_name : string }.

(** [issue.fields]; an attribute that is missing or [None] is [None]. *)
Record Fields := {
  summary : string;
  issuetype_name : string;
  status_name : string;
  priority_name : option string;
  description : option string;
  assignee_displayName : option string
}.

Record Issue := { key : string; fields : Fields }.

Record Priority := { priority_label : string }.
Record IssueType := { issue_type_label : string }.

(** A value of the [fields] dictionary sent by [create_issue]: a string
    or a one-level dictionary of strings. *)
Inductive field :=
| FStr (s : string)
| FDict (d : gmap string string).

Inductive auth :=
| token_auth (token : string)
| basic_auth (user secret : string).

(** The arguments of the [JIRA(...)] constructor.  [get_server_info] is
    [True] unless the caller passes it. *)
Record JIRAArgs := {
  options_server : string;
  options_check_update : bool;
  credentials : auth;
  get_server_info : bool;
  proxies : option (gmap string string)
}.

(** The calls the adapter makes to the library. *)
Inductive call :=
| CallJIRA (args : JIRAArgs)
| CallCreateIssue (fields : gmap string field)
| CallProjects
| CallSearchIssues (jql : string) (maxResults : Z) (fields : string)
| CallIssue (issue_key : string)
| CallProject (project_key : string)
| CallPriorities
| CallIssueTypes.

(** The environment of the process: the configuration file and the
    answers of the library.  An answer may depend on the calls made so
    far, so that the remote system is free to change over time. *)
Record Env := {
  config_path : string;
  config_file : option (gmap string string);
  lib_JIRA : list call → JIRAArgs → exn + unit;
  lib_create_issue : list call → gmap string field → exn + Issue;
  lib_projects : list call → exn + list Project;
  lib_search_issues : list call → string → Z → string → exn + list Issue;
  lib_issue : list call → string → exn + Issue;
  lib_project : list call → string → exn + Project;
  lib_priorities : list call → exn + list Priority;
  lib_issue_types : list call → exn + list IssueType;
  pydantic_message : gmap string string → string
}.

(** A library call: it is appended to the log and answered by the
    environment from the log before the call. *)
Definition invoke {A} (c : call) (answer : list call → exn + A)
  : M (list call) A :=
  fun log => (answer log, log ++ [c]).

Section Adapter.
Context (env : Env).

Record JiraClientWrapper := {
  config : gmap string string;
  jira : JIRAArgs
}.

Definition _load_config : M (list call) (gmap string string) :=
  match config_file env with
  | None =>
      raise (FileNotFoundError
        ("Configuration file not found: " +:+ config_path env +:+ nl +:+ nl
         +:+ "Please create ~/.jissue/config.json with the following structure:" +:+ nl
         +:+ "{" +:+ nl
         +:+ "  " +:+ dq +:+ "jira_url" +:+ dq +:+ ": " +:+ dq +:+ "https://your-domain.atlassian.net" +:+ dq +:+ "," +:+ nl
         +:+ "  " +:+ dq +:+ "email" +:+ dq +:+ ": " +:+ dq +:+ "your-email@example.com" +:+ dq +:+ "," +:+ nl
         +:+ "  " +:+ dq +:+ "api_token" +:+ dq +:+ ": " +:+ dq +:+ "your-api-token" +:+ dq +:+ "," +:+ nl
         +:+ "  " +:+ dq +:+ "default_project" +:+ dq +:+ ": " +:+ dq +:+ "PROJ" +:+ dq +:+ nl
         +:+ "}"))
  | Some c => ret c
  end.

(** [JIRA(options=..., token_auth=... | basic_auth=..., proxies=...)] *)
Definition JIRA (args : JIRAArgs) : M (list call) JIRAArgs :=
  _ <- invoke (CallJIRA args) (fun log => lib_JIRA env log args) ;;
  ret args.

(** [k in config] *)
Definition has (config : gmap string string) (k : string) : bool :=
  match config !! k with Some _ => true | None => false end.

Definition invalid_config_message : string :=
  "Invalid config: must have either 'token' for token auth, "
  +:+ "(email, api_token) for Cloud, or (username, password) for Data Center".

(** [_connect]: the handler of its [try] logs and re-raises the same
    exception, so it is left out. *)
Definition _connect (config : gmap string string) : M (list call) JIRAArgs :=
  server <- getitem config "jira_url" ;;
  proxies <-
    (if has config "proxy"
     then p <- getitem config "proxy" ;;
          ret (Some ({[ "http" := p; "https" := p ]} : gmap string string))
     else ret None) ;;
  if has config "token" then
    token <- getitem config "token" ;;
    JIRA {| options_server := server; options_check_update := false;
            credentials := token_auth token; get_server_info := false;
            proxies := proxies |}
  else if has config "email" && has config "api_token" then
    email <- getitem config "email" ;;
    api_token <- getitem config "api_token" ;;
    JIRA {| options_server := server; options_check_update := false;
            credentials := basic_auth email api_token; get_server_info := true;
            proxies := proxies |}
  else if has config "username" && has config "password" then
    username <- getitem config "username" ;;
    password <- getitem config "password" ;;
    JIRA {| options_server := server; options_check_update := false;
            credentials := basic_auth username password; get_server_info := true;
            proxies := proxies |}
  else raise (ValueError invalid_config_message).

(** [JiraClientWrapper.__init__] *)
Definition init : M (list call) JiraClientWrapper :=
  config <- _load_config ;;
  jira <- _connect config ;;
  ret {| config := config; jira := jira |}.

Definition issue_type_map : gmap string string :=
  {[ "story" := "Story";
     "bug" := "Bug";
     "task" := "Task";
     "spike" := "Spike";
     "epic" := "Epic";
     "subtask" := "Sub-task" ]}.

(** The local [jira_issue_type] of [create_issue]. *)
Definition jira_issue_type (issue_type : string) : string :=
  default (capitalize issue_type) (issue_type_map !! lower issue_type).

(** The local [issue_dict] of [create_issue]. *)
Definition issue_dict (project issue_type summary description : string)
    (priority assignee : option string) : gmap string field :=
  let issue_dict : gmap string field :=
    {[ "project" := FDict {[ "key" := project ]};
       "summary" := FStr summary;
       "description" := FStr description;
       "issuetype" := FDict {[ "name" := jira_issue_type issue_type ]} ]} in
  let issue_dict :=
    match priority with
    | Some p => if truthy p
                then <[ "priority" := FDict {[ "name" := p ]} ]> issue_dict
                else issue_dict
    | None => issue_dict
    end in
  match assignee with
  | Some a => if truthy a
              then <[ "assignee" := FDict {[ "name" := a ]} ]> issue_dict
              else issue_dict
  | None => issue_dict
  end.

Definition create_issue (self : JiraClientWrapper)
    (project issue_type summary description : string)
    (priority assignee : option string) : M (list call) string :=
  let issue_dict :=
    issue_dict project issue_type summary description priority assignee in
  try_except
    (issue <- invoke (CallCreateIssue issue_dict)
                (fun log => lib_create_issue env log issue_dict) ;;
     ret (key issue))
    (fun e => raise (Exception ("Failed to create Jira issue: " +:+ str_exn e))).

Definition get_issue_url {St} (self : JiraClientWrapper) (issue_key : string)
  : M St string :=
  jira_url <- getitem (config self) "jira_url" ;;
  ret (jira_url +:+ "/browse/" +:+ issue_key).

Definition get_projects (self : JiraClientWrapper)
  : M (list call) (list (string * string)) :=
  try_except
    (projects <- invoke CallProjects (lib_projects env) ;;
     ret (map (fun p => (project_key p, project_name p)) projects))
    (fun e => raise (Exception ("Failed to get Jira projects: " +:+ str_exn e))).

(** The dictionary built for an issue by [search_issues] and [get_issue]:
    all eight keys are always present. *)
Record IssueInfo := {
  info_key : string;
  info_summary : string;
  info_type : string;
  info_status : string;
  info_priority : option string;
  info_description : string;
  info_assignee : option string;
  info_url : string
}.

Definition issue_info (self : JiraClientWrapper) (issue : Issue)
  : M (list call) IssueInfo :=
  url <- get_issue_url self (key issue) ;;
  ret {| info_key := key issue;
         info_summary := summary (fields issue);
         info_type := issuetype_name (fields issue);
         info_status := status_name (fields issue);
         info_priority := priority_name (fields issue);
         info_description := default EmptyString (description (fields issue));
         info_assignee := assignee_displayName (fields issue);
         info_url := url |}.

(** The local [jql] of [search_issues]. *)
Definition search_jql (query : string) (project : option string) : string :=
  let jql_parts : list string := [] in
  let jql_parts :=
    if truthy query && truthy (strip query)
    then jql_parts ++ ["(summary ~ " +:+ dq +:+ query +:+ dq
                       +:+ " OR description ~ " +:+ dq +:+ query +:+ dq +:+ ")"]
    else jql_parts in
  let jql_parts :=
    if truthy_opt project
    then jql_parts ++ ["project = " +:+ default EmptyString project]
    else jql_parts in
  match jql_parts with
  | [] => "ORDER BY updated DESC"
  | _ => join " AND " jql_parts +:+ " ORDER BY updated DESC"
  end.

Definition search_fields : string :=
  "summary,issuetype,status,priority,description,assignee".

Definition search_issues (self : JiraClientWrapper) (query : string)
    (project : option string) (max_results : Z)
  : M (list call) (list IssueInfo) :=
  try_except
    (let jql := search_jql query project in
     issues <- invoke (CallSearchIssues jql max_results search_fields)
                 (fun log => lib_search_issues env log jql max_results search_fields) ;;
     for_each (issue_info self) issues)
    (fun e => raise (Exception ("Failed to search Jira issues: " +:+ str_exn e))).

Definition get_issue (self : JiraClientWrapper) (issue_key : string)
  : M (list call) IssueInfo :=
  try_except
    (issue <- invoke (CallIssue issue_key)
                (fun log => lib_issue env log issue_key) ;;
     issue_info self issue)
    (fun e => raise (Exception ("Failed to get Jira issue " +:+ issue_key
                                +:+ ": " +:+ str_exn e))).

Record ProjectMetadata := {
  meta_project : string * string;
  meta_priorities : list string;
  meta_issue_types : list string
}.

Definition get_project_metadata (self : JiraClientWrapper) (project_key : string)
  : M (list call) ProjectMetadata :=
  try_except
    (project <- invoke (CallProject project_key)
                  (fun log => lib_project env log project_key) ;;
     priorities <- invoke CallPriorities (lib_priorities env) ;;
     let priority_list := map priority_label priorities in
     issue_types <- invoke CallIssueTypes (lib_issue_types env) ;;
     let issue_type_list := map issue_type_label issue_types in
     ret {| meta_project := (JiraClient.project_key project, project_name project);
            meta_priorities := priority_list;
            meta_issue_types := issue_type_list |})
    (fun e => raise (Exception ("Failed to get project metadata: " +:+ str_exn e))).

End Adapter.

(** *** Definitions used to state the properties of the adapter *)

(** The three credential shapes of a configuration. *)
Definition has_token_shape (config : gmap string string) : bool :=
  has config "token".
Definition has_cloud_shape (config : gmap string string) : bool :=
  has config "email" && has config "api_token".
Definition has_basic_shape (config : gmap string string) : bool :=
  has config "username" && has config "password".

(** How many of the three shapes a configuration holds. *)
Definition shape_count (config : gmap string string) : nat :=
  Nat.b2n (has_token_shape config) + Nat.b2n (has_cloud_shape config)
  + Nat.b2n (has_basic_shape config).

(** The authentication chosen by the stated order of preference: the
    token, else e-mail and API token, else user name and password. *)
Definition preferred_auth (config : gmap string string) : option auth :=
  match config !! "token" with
  | Some token => Some (token_auth token)
  | None =>
      match config !! "email", config !! "api_token" with
      | Some email, Some api_token => Some (basic_auth email api_token)
      | _, _ =>
          match config !! "username", config !! "password" with
          | Some username, Some password => Some (basic_auth username password)
          | _, _ => None
          end
      end
  end.

(** The remote type name as the specification words it: the six names of
    the table, matched on the lower-cased input, and the capitalized input
    otherwise.  Lower-casing and capitalizing are taken from the letter
    tables, not from the functions the code calls. *)
Definition spec_remote_type_name (issue_type : string) : string :=
  let t := all_small issue_type in
  if decide (t = "story") then "Story"
  else if decide (t = "bug") then "Bug"
  else if decide (t = "task") then "Task"
  else if decide (t = "spike") then "Spike"
  else if decide (t = "epic") then "Epic"
  else if decide (t = "subtask") then "Sub-task"
  else first_capital_rest_small issue_type.

(** The entry of the payload for an optional name: none when the name is
    [None] or the empty string. *)
Definition named_entry (o : option string) : option field :=
  match o with
  | Some (String c r) => Some (FDict {[ "name" := String c r ]})
  | _ => None
  end.

(** The entry under the reading that any supplied string is sent. *)
Definition named_entry_if_supplied (o : option string) : option field :=
  match o with
  | Some p => Some (FDict {[ "name" := p ]})
  | None => None
  end.

(** The clauses of a search query. *)
Definition text_clause (query : string) : string :=
  "(summary ~ " +:+ dq +:+ query +:+ dq
  +:+ " OR description ~ " +:+ dq +:+ query +:+ dq +:+ ")".
Definition project_clause (project : string) : string :=
  "project = " +:+ project.
Definition order_clause : string := "ORDER BY updated DESC".

(** The query by the four cases of the specification, where [with_text]
    tells whether the text clause is wanted and [project] is the project
    to filter on, if any. *)
Definition jql_by_cases (with_text : bool) (query : string)
    (project : option string) : string :=
  match with_text, project with
  | false, Some p => project_clause p +:+ " " +:+ order_clause
  | true, None => text_clause query +:+ " " +:+ order_clause
  | true, Some p =>
      text_clause query +:+ " AND " +:+ project_clause p +:+ " " +:+ order_clause
  | false, None => order_clause
  end.

(** The cases decided on a non-empty query and a given project. *)
Definition jql_as_claimed (query : string) (project : option string) : string :=
  jql_by_cases (truthy query) query project.

(** The cases decided on a non-blank query and a non-empty project. *)
Definition jql_as_built (query : string) (project : option string) : string :=
  jql_by_cases (negb (blank query)) query
    (if truthy_opt project then project else None).

(** An environment for examples: the configuration is [cfg], the library
    accepts every connection, and a search is answered by [found]. *)
Definition example_env (cfg : option (gmap string string))
    (found : exn + list Issue) : Env :=
  {| config_path := "/home/user/.jissue/config.json";
     config_file := cfg;
     lib_JIRA := fun _ _ => inr tt;
     lib_create_issue := fun _ _ =>
       inr {| key := "PROJ-1";
              fields := {| summary := "s"; issuetype_name := "Bug";
                           status_name := "Open"; priority_name := None;
                           description := None;
                           assignee_displayName := None |} |};
     lib_projects := fun _ => inr [ {| project_key := "PROJ"; project_name := "Project" |} ];
     lib_search_issues := fun _ _ _ _ => found;
     lib_issue := fun _ _ => inl (LibraryError "Issue Does Not Exist");
     lib_project := fun _ k =>
       if decide (k = "PROJ")
       then inr {| project_key := "PROJ"; project_name := "Project" |}
       else inl (LibraryError ("No project could be found with key " +:+ k));
     lib_priorities := fun _ =>
       inr [ {| priority_label := "High" |}; {| priority_label := "Low" |} ];
     lib_issue_types := fun _ =>
       inr [ {| issue_type_label := "Bug" |}; {| issue_type_label := "Story" |} ];
     pydantic_message := fun _ => "1 validation error for IssueInput" |}.

Definition example_config : gmap string string :=
  {[ "jira_url" := "https://jira.example.com";
     "token" := "t0k3n";
     "username" := "alice";
     "password" := "secret";
     "default_project" := "PROJ" ]}.

(** A client as [JiraClientWrapper()] builds it from [example_config]. *)
Definition example_client : JiraClientWrapper :=
  {| config := example_config;
     jira := {| options_server := "https://jira.example.com";
                options_check_update := false;
                credentials := token_auth "t0k3n";
                get_server_info := false;
                proxies := None |} |}.

End JiraClient.

(* ===================================================================== *)
(** ** server.py: the tool dispatcher *)
(* ===================================================================== *)

Module Server.
Import PyStr PyDict Py JiraClient.
Local Open Scope py_scope.

Record TextContent := { type : string; text : string }.

(** The argument mapping of a tool call, for arguments that conform to
    the types of the declared input schemas: the string-valued properties
    by name, and for [max_results] the integer that [int(max_results)]
    yields.  A number on which that conversion raises (an infinity, a NaN)
    is outside the model: for it the handler raises before the search. *)
Record arguments := {
  str_args : gmap string string;
  max_results : option Z
}.

(** The names and required properties declared by [list_tools]. *)
Record Tool := { name : string; required : list string }.

Definition list_tools : list Tool :=
  [ {| name := "get_issue_templates"; required := [] |};
    {| name := "create_jira_issue";
       required := ["project"; "issue_type"; "summary"; "description"] |};
    {| name := "get_jira_projects"; required := [] |};
    {| name := "search_jira_issues"; required := ["query"] |};
    {| name := "get_jira_issue"; required := ["issue_key"] |};
    {| name := "get_project_metadata"; required := ["project_key"] |} ].

(** The names declared by [list_tools]. *)
Definition tool_names : list string := name <$> list_tools.

(** [JissueServer]: the template manager and the lazily created client. *)
Record JissueServer := {
  template_manager : Templates.TemplateManager;
  jira_client : option JiraClientWrapper
}.

(** The state a tool call runs in: the server object and the log of
    library calls. *)
Record State := { server : JissueServer; log : list call }.

(** [JissueServer.__init__]; the argument is the listing of the custom
    template directory. *)
Definition init (custom_dir : option Templates.md_files) : JissueServer :=
  {| template_manager := Templates.init custom_dir; jira_client := None |}.

(** A server that has not connected yet, with the built-in templates. *)
Definition fresh_state : State :=
  {| server := init None; log := [] |}.

(** A call without arguments. *)
Definition no_arguments : arguments :=
  {| str_args := ∅; max_results := None |}.

Section Dispatcher.
Context (env : Env).

(** Run adapter code on the log of the state. *)
Definition on_log {A} (m : M (list call) A) : M State A :=
  fun st =>
    let (r, log') := m (log st) in
    (r, {| server := server st; log := log' |}).

(** [if self.jira_client is None: self.jira_client = JiraClientWrapper()] *)
Definition ensure_client : M State JiraClientWrapper :=
  fun st =>
    match jira_client (server st) with
    | Some client => (inr client, st)
    | None =>
        match JiraClient.init env (log st) with
        | (inr client, log') =>
            (inr client,
             {| server := {| template_manager := template_manager (server st);
                             jira_client := Some client |};
                log := log' |})
        | (inl e, log') => (inl e, {| server := server st; log := log' |})
        end
    end.

Definition get_template_manager : M State Templates.TemplateManager :=
  fun st => (inr (template_manager (server st)), st).

Definition text_block (result : string) : list TextContent :=
  [ {| type := "text"; text := result |} ].

(** [str(x)] of an optional string: [None] prints as its name. *)
Definition str_opt (o : option string) : string := default "None" o.

Definition _get_issue_templates (args : arguments) : M State (list TextContent) :=
  tm <- get_template_manager ;;
  let issue_type := str_args args !! "issue_type" in
  if truthy_opt issue_type then
    let issue_type := default EmptyString issue_type in
    let template := Templates.get_template tm issue_type in
    if truthy_opt template then
      ret (text_block ("# " +:+ upper issue_type +:+ " Template" +:+ nl +:+ nl
                       +:+ default EmptyString template))
    else
      ret (text_block ("No template found for issue type: " +:+ issue_type
                       +:+ nl +:+ nl +:+ "Available types: "
                       +:+ join ", " (Templates.list_templates tm)))
  else
    let templates := Templates.get_all_templates tm in
    ret (text_block
      (fold_left
         (fun result item =>
            result +:+ "## " +:+ upper (fst item) +:+ nl +:+ nl +:+ snd item
            +:+ nl +:+ nl +:+ "---" +:+ nl +:+ nl)
         templates
         ("# Available Issue Templates" +:+ nl +:+ nl))).

(** [IssueInput]: the validated input of [create_jira_issue]. *)
Record IssueInput := {
  input_project : string;
  input_issue_type : string;
  input_summary : string;
  input_description : string;
  input_priority : option string;
  input_assignee : option string
}.

(** The construction of [IssueInput] from the arguments: the four
    required fields must be present; the text of the validation error is
    the library's. *)
Definition validate (args : arguments) : M State IssueInput :=
  let a := str_args args in
  match a !! "project", a !! "issue_type", a !! "summary", a !! "description" with
  | Some project, Some issue_type, Some summary, Some description =>
      ret {| input_project := project; input_issue_type := issue_type;
             input_summary := summary; input_description := description;
             input_priority := a !! "priority";
             input_assignee := a !! "assignee" |}
  | _, _, _, _ => raise (ValidationError (pydantic_message env a))
  end.

(** The check mark that opens the confirmation, as spelled in the source. *)
Definition created_mark : string := "âœ“".

Definition _create_jira_issue (args : arguments) : M State (list TextContent) :=
  issue_input <- validate args ;;
  client <- ensure_client ;;
  issue_key <- on_log (create_issue env client
                 (input_project issue_input) (input_issue_type issue_input)
                 (input_summary issue_input) (input_description issue_input)
                 (input_priority issue_input) (input_assignee issue_input)) ;;
  issue_url <- get_issue_url client issue_key ;;
  ret (text_block (created_mark +:+ " Created Jira issue: " +:+ issue_key
                   +:+ nl +:+ nl +:+ "URL: " +:+ issue_url
                   +:+ nl +:+ nl +:+ "Summary: " +:+ input_summary issue_input)).

Definition _get_jira_projects (args : arguments) : M State (list TextContent) :=
  client <- ensure_client ;;
  projects <- on_log (get_projects env client) ;;
  ret (text_block
    (fold_left
       (fun result project =>
          result +:+ "- **" +:+ fst project +:+ "**: " +:+ snd project +:+ nl)
       projects
       ("# Available Jira Projects" +:+ nl +:+ nl))).

(** [len(s)] *)
Definition len (s : string) : nat := String.length s.

(** The text added for one issue by the loop of [_search_jira_issues]. *)
Definition search_entry (result : string) (issue : IssueInfo) : string :=
  let result := result +:+ "## " +:+ info_key issue +:+ ": "
                +:+ info_summary issue +:+ nl in
  let result := result +:+ "**Type:** " +:+ info_type issue
                +:+ " | **Status:** " +:+ info_status issue
                +:+ " | **Priority:** " +:+ str_opt (info_priority issue) +:+ nl in
  let result := result +:+ "**URL:** " +:+ info_url issue +:+ nl in
  let result :=
    if truthy (info_description issue) then
      let desc := take 200 (info_description issue) in
      let desc := if (200 <? len (info_description issue))%nat
                  then desc +:+ "..." else desc in
      result +:+ "**Description:** " +:+ desc +:+ nl
    else result in
  result +:+ nl +:+ "---" +:+ nl +:+ nl.

Definition _search_jira_issues (args : arguments) : M State (list TextContent) :=
  client <- ensure_client ;;
  query <- getitem (str_args args) "query" ;;
  let project := str_args args !! "project" in
  let max_results := default 10 (max_results args) in
  issues <- on_log (search_issues env client query project max_results) ;;
  match issues with
  | [] => ret (text_block ("No issues found matching: " +:+ query))
  | _ =>
      ret (text_block
        (fold_left search_entry issues
           ("# Found " +:+ str_int (Z.of_nat (length issues)) +:+ " issue(s)"
            +:+ nl +:+ nl)))
  end.

Definition _get_jira_issue (args : arguments) : M State (list TextContent) :=
  client <- ensure_client ;;
  issue_key <- getitem (str_args args) "issue_key" ;;
  issue <- on_log (get_issue env client issue_key) ;;
  let result := "# " +:+ info_key issue +:+ ": " +:+ info_summary issue
                +:+ nl +:+ nl in
  let result := result +:+ "**Type:** " +:+ info_type issue +:+ nl in
  let result := result +:+ "**Status:** " +:+ info_status issue +:+ nl in
  let result := result +:+ "**Priority:** " +:+ str_opt (info_priority issue) +:+ nl in
  let result := result +:+ "**Assignee:** " +:+ str_opt (info_assignee issue) +:+ nl in
  let result := result +:+ "**URL:** " +:+ info_url issue +:+ nl +:+ nl in
  let result := result +:+ "## Description" +:+ nl +:+ nl
                +:+ info_description issue +:+ nl in
  ret (text_block result).

Definition _get_project_metadata (args : arguments) : M State (list TextContent) :=
  client <- ensure_client ;;
  project_key <- getitem (str_args args) "project_key" ;;
  metadata <- on_log (get_project_metadata env client project_key) ;;
  let result := "# " +:+ fst (meta_project metadata) +:+ " - "
                +:+ snd (meta_project metadata) +:+ nl +:+ nl in
  let result := result +:+ "## Available Priorities" +:+ nl in
  let result :=
    fold_left (fun result priority => result +:+ "- " +:+ priority +:+ nl)
      (meta_priorities metadata) result in
  let result := result +:+ nl +:+ "## Available Issue Types" +:+ nl in
  let result :=
    fold_left (fun result issue_type => result +:+ "- " +:+ issue_type +:+ nl)
      (meta_issue_types metadata) result in
  ret (text_block result).

Definition handler := arguments → M State (list TextContent).

(** The table [handlers] of [call_tool]. *)
Definition handlers : gmap string handler :=
  {[ "get_issue_templates" := _get_issue_templates;
     "create_jira_issue" := _create_jira_issue;
     "get_jira_projects" := _get_jira_projects;
     "search_jira_issues" := _search_jira_issues;
     "get_jira_issue" := _get_jira_issue;
     "get_project_metadata" := _get_project_metadata ]}.

(** The body of the [try] of [call_tool]. *)
Definition dispatch (name : string) (arguments : arguments)
  : M State (list TextContent) :=
  match handlers !! name with
  | None => raise (ValueError ("Unknown tool: " +:+ name))
  | Some handler => handler arguments
  end.

(** [call_tool]: an exception of the body becomes the response. *)
Definition call_tool (name : string) (arguments : arguments) (st : State)
  : list TextContent * State :=
  match dispatch name arguments st with
  | (inr response, st') => (response, st')
  | (inl e, st') => (text_block ("Error: " +:+ str_exn e), st')
  end.

End Dispatcher.
End Server.

(* ===================================================================== *)
(** ** cli.py: the prompt handed to the interactive program *)
(* ===================================================================== *)

Module Cli.
Import PyStr Py.

(** The parsed command line, as [main] leaves it for
    [build_initial_prompt]: the project option and the joined text. *)
Record Args := { project : option string; text : option string }.

(** The part of [main] that joins the free-text words: an empty list of
    words leaves no text. *)
Definition main_text (words : list string) : option string :=
  match words with
  | [] => None
  | _ => Some (join " " words)
  end.

(** The text [build_initial_prompt] builds once the configuration is
    read; [config] is the content of the configuration file, a JSON object
    with string values, and [None] when the file does not exist. *)
Definition build_initial_prompt (config : option (gmap string string))
    (args : Args) : string :=
  let default_project := "PROJ" in
  let default_project :=
    match config with
    | Some config => default default_project (config !! "default_project")
    | None => default_project
    end in
  let project :=
    if truthy_opt (project args)
    then default EmptyString (project args)
    else default_project in
  let parts : list string := [] in
  let parts := parts ++ ["I need to create a Jira issue in project " +:+ project +:+ "."] in
  let parts :=
    if truthy_opt (text args)
    then parts ++ [nl +:+ "Here's what I want to create:" +:+ nl
                   +:+ default EmptyString (text args)]
    else parts ++ [nl +:+ "Please ask me what I want to create."] in
  let parts := parts ++ [nl +:+ "Please help me by:"] in
  let parts := parts ++ ["1. First, get the project metadata to see available priorities and issue types"] in
  let parts := parts ++ ["2. Analyze my description and determine the appropriate issue type (bug/story/task/spike/etc)"] in
  let parts := parts ++ ["3. Suggest an appropriate priority based on the severity/importance"] in
  let parts := parts ++ ["4. Search for similar existing issues to avoid duplicates:"] in
  let parts := parts ++ ["   - Extract key concepts and search terms from my description"] in
  let parts := parts ++ ["   - Search using different combinations of keywords"] in
  let parts := parts ++ ["   - Look for semantic similarity, not just exact phrase matches"] in
  let parts := parts ++ ["   - Tell me if you find potentially duplicate issues"] in
  let parts := parts ++ ["5. Use the appropriate template to format the issue"] in
  let parts := parts ++ ["6. Show me the proposed issue (summary, description, type, priority)"] in
  let parts := parts ++ ["7. After I approve, create the issue in Jira"] in
  join nl parts.

(** What [build_initial_prompt] finds at the path of the configuration
    file: no file; a file on which [open], [json.load] or [config.get]
    raises (it cannot be read, is not JSON, or is not a JSON object); or a
    JSON object with string values. *)
Inductive ConfigFile :=
| NoConfig
| BrokenConfig (e : exn)
| ConfigObject (config : gmap string string).

(** [build_initial_prompt] with the reading of the file: the file is
    opened and parsed, outside any [try], before the arguments are looked
    at. *)
Definition build_initial_prompt_from (file : ConfigFile) (args : Args)
  : exn + string :=
  match file with
  | NoConfig => inr (build_initial_prompt None args)
  | BrokenConfig e => inl e
  | ConfigObject config => inr (build_initial_prompt (Some config) args)
  end.

End Cli.

(* ===================================================================== *)
(** ** Definitions used to state further properties *)
(* ===================================================================== *)

Module Obs.
Import PyStr Py JiraClient Server.

(** The call is a construction of the library client. *)
Definition is_connect (c : call) : bool :=
  match c with CallJIRA _ => true | _ => false end.

(** The dictionary built for an issue when the base address is [url]. *)
Definition to_info (url : string) (issue : Issue) : IssueInfo :=
  {| info_key := key issue;
     info_summary := summary (fields issue);
     info_type := issuetype_name (fields issue);
     info_status := status_name (fields issue);
     info_priority := priority_name (fields issue);
     info_description := default EmptyString (description (fields issue));
     info_assignee := assignee_displayName (fields issue);
     info_url := url +:+ "/browse/" +:+ key issue |}.

(** The names a payload of [create_issue] may hold. *)
Definition payload_keys : gset string :=
  {[ "project"; "summary"; "description"; "issuetype"; "priority"; "assignee" ]}.

(** A response of exactly one block of type [text]. *)
Definition single_text (response : list TextContent) : Prop :=
  ∃ s, response = [ {| type := "text"; text := s |} ].

(** The tools whose handler reads one required argument after it has
    obtained the client, with the name of that argument. *)
Definition keyed_tools : list (string * string) :=
  [ ("search_jira_issues", "query");
    ("get_jira_issue", "issue_key");
    ("get_project_metadata", "project_key") ].

(** None of the calls is a construction of the library client. *)
Definition no_connect (calls : list call) : Prop :=
  Forall (λ c, is_connect c = false) calls.

(** The log grows by calls that construct no client. *)
Definition grows_quietly (log log' : list call) : Prop :=
  ∃ calls, log' = log ++ calls ∧ no_connect calls.

(** A step that leaves the server object alone and asks the library for
    anything but a new client. *)
Definition quiet_step (st st' : State) : Prop :=
  server st' = server st
  ∧ ∃ calls, log st' = log st ++ calls ∧ no_connect calls.

(** A computation all of whose steps are quiet. *)
Definition quiet {A} (m : M State A) : Prop :=
  ∀ st, quiet_step st (m st).2.

(** What a tool call may do to the state: the template manager stays;
    the log grows; either the client stays as it was and no client is
    constructed, or there was no client and the first call made is the one
    construction. *)
Definition tool_step (st st' : State) : Prop :=
  template_manager (server st') = template_manager (server st)
  ∧ ∃ calls,
      log st' = log st ++ calls
      ∧ ((jira_client (server st') = jira_client (server st) ∧ no_connect calls)
         ∨ (jira_client (server st) = None
            ∧ ∃ args rest, calls = CallJIRA args :: rest ∧ no_connect rest)).

(** The tools whose handler obtains the client before anything else. *)
Definition connect_first_tools : list string :=
  [ "get_jira_projects"; "search_jira_issues"; "get_jira_issue";
    "get_project_metadata" ].

(** The properties [create_jira_issue] requires. *)
Definition create_required : list string :=
  [ "project"; "issue_type"; "summary"; "description" ].

End Obs.

(* ===================================================================== *)
(** ** Facts about the string operations *)
(* ===================================================================== *)

Module PyStrFacts.
Import PyStr.

Lemma lower_char_not_upper c : is_upper (lower_char c) = false.
  Proof.
    unfold lower_char. destruct (is_upper c) eqn:E; [|exact E].
    unfold is_upper, code in *.
    apply andb_true_iff in E as [E1 E2].
    apply N.leb_le in E1, E2.
    rewrite N_ascii_embedding by lia.
    apply andb_false_iff. right. apply N.leb_gt. lia.
  Qed.

Lemma lower_no_upper s : has_upper (lower s) = false.
  Proof.
    induction s as [|c r IH]; simpl; [reflexivity|].
    by rewrite lower_char_not_upper, IH.
  Qed.

  (** A string with an upper-case letter is never the result of [lower]. *)
Lemma lower_neq_upper s t : has_upper s = true → lower t ≠ s.
  Proof.
    intros Hs E. rewrite <- E, lower_no_upper in Hs. discriminate.
  Qed.

Lemma lstrip_blank s : blank s = true → lstrip s = EmptyString.
  Proof.
    induction s as [|c r IH]; simpl; [done|].
    intros [Hc Hr]%andb_true_iff. rewrite Hc. auto.
  Qed.

Lemma rstrip_empty_blank s : rstrip s = EmptyString → blank s = true.
  Proof.
    induction s as [|c r IH]; simpl; [done|].
    destruct (rstrip r) eqn:E; [|discriminate].
    destruct (is_space c); [|discriminate]. intros _. simpl. auto.
  Qed.

Lemma lstrip_head_not_space s c r : lstrip s = String c r → is_space c = false.
  Proof.
    induction s as [|d q IH]; simpl; [discriminate|].
    destruct (is_space d) eqn:E; [exact IH|].
    intros [= <- <-]. exact E.
  Qed.

  (** [s.strip()] is empty exactly when [s] is blank. *)
Lemma strip_truthy s : truthy (strip s) = negb (blank s).
  Proof.
    unfold strip. destruct (blank s) eqn:B; simpl.
    - by rewrite lstrip_blank.
    - destruct (rstrip (lstrip s)) eqn:E; [|done]. exfalso.
      apply rstrip_empty_blank in E.
      destruct (lstrip s) as [|c r] eqn:L.
      + clear E. induction s as [|d q IH]; simpl in *; [discriminate|].
        destruct (is_space d); [auto|discriminate].
      + apply lstrip_head_not_space in L. simpl in E. by rewrite L in E.
  Qed.

Lemma blank_truthy_strip s : truthy s && truthy (strip s) = negb (blank s).
  Proof.
    rewrite strip_truthy. destruct s; simpl; [done|]. done.
  Qed.

(** The case functions written with character codes are the ones written
    by table. *)
Lemma lower_char_table c : lower_char c = small_of c.
Proof. by destruct c as [[] [] [] [] [] [] [] []]. Qed.

Lemma upper_char_table c : upper_char c = capital_of c.
Proof. by destruct c as [[] [] [] [] [] [] [] []]. Qed.

Lemma lower_table s : lower s = all_small s.
Proof. induction s as [|c r IH]; simpl; [done|]. by rewrite lower_char_table, IH. Qed.

Lemma capitalize_table s : capitalize s = first_capital_rest_small s.
Proof.
  destruct s as [|c r]; simpl; [done|].
  by rewrite upper_char_table, lower_table.
Qed.

End PyStrFacts.

Module PyDictFacts.
Import PyDict.
Section Facts.
Context {V : Type}.
Implicit Types (d e : dict V) (k : string) (v : V).

Lemma get_set_eq k v d : get k (set k v d) = Some v.
Proof.
  induction d as [|[k' v'] r IH]; simpl.
  - by rewrite decide_True.
  - destruct (decide (k = k')) as [->|Hne]; simpl.
    + by rewrite decide_True.
    + by rewrite decide_False.
Qed.

Lemma get_set_ne k k' v d : k ≠ k' → get k' (set k v d) = get k' d.
Proof.
  intros Hne. induction d as [|[k0 v0] r IH]; simpl.
  - by rewrite decide_False.
  - destruct (decide (k = k0)) as [->|Hk]; simpl.
    + by rewrite !decide_False.
    + destruct (decide (k' = k0)); [done|exact IH].
Qed.

Lemma in_keys_get k d : k ∈ keys d ↔ is_Some (get k d).
Proof.
  unfold keys. induction d as [|[k' v'] r IH]; simpl.
  - split; [by intros ?%elem_of_nil | by intros [? ?]].
  - rewrite elem_of_cons. destruct (decide (k = k')) as [->|Hne].
    + split; [by eexists | auto].
    + rewrite <- IH. split; [intros [?|?]; [done|done] | auto].
Qed.

Lemma keys_set_absent k v d :
  get k d = None → keys (set k v d) = keys d ++ [k].
Proof.
  unfold keys. induction d as [|[k' v'] r IH]; simpl; [done|].
  destruct (decide (k = k')); [discriminate|].
  intros H. simpl. f_equal. by apply IH.
Qed.

Lemma keys_set_present k v d :
  is_Some (get k d) → keys (set k v d) = keys d.
Proof.
  unfold keys. induction d as [|[k' v'] r IH]; simpl; [by intros [? ?]|].
  destruct (decide (k = k')); [done|].
  intros H. simpl. f_equal. by apply IH.
Qed.

(** Assignment never duplicates a key. *)
Lemma NoDup_keys_set k v d : NoDup (keys d) → NoDup (keys (set k v d)).
Proof.
  intros Hd. destruct (get k d) eqn:E.
  - rewrite keys_set_present; [done | by eexists].
  - rewrite keys_set_absent by done.
    apply NoDup_app. split_and!; [done | | apply NoDup_singleton].
    intros x Hx ->%list_elem_of_singleton.
    apply in_keys_get in Hx as [? ?]. congruence.
Qed.

Lemma NoDup_keys_update d e : NoDup (keys d) → NoDup (keys (update d e)).
Proof.
  unfold update. revert d.
  induction e as [|[k v] r IH]; simpl; [done|].
  intros d Hd. apply IH. by apply NoDup_keys_set.
Qed.

(** Keys absent from [e] keep their value through [update]. *)
Lemma get_update_absent k d e :
  get k e = None → get k (update d e) = get k d.
Proof.
  unfold update. revert d.
  induction e as [|[k' v'] r IH]; simpl; [done|].
  intros d. destruct (decide (k = k')) as [->|Hne]; [discriminate|].
  intros H. rewrite IH by done. apply get_set_ne. congruence.
Qed.

(** A key of [e] takes the value [e] gives it. *)
Lemma get_update_present k v d e :
  NoDup (keys e) → get k e = Some v → get k (update d e) = Some v.
Proof.
  unfold update. revert d.
  induction e as [|[k' v'] r IH]; simpl; [done|].
  intros d [Hk' Hr]%NoDup_cons.
  destruct (decide (k = k')) as [->|Hne].
  - intros [= ->]. change (get k' (update (set k' v d) r) = Some v).
    rewrite get_update_absent, get_set_eq; [done|].
    destruct (get k' r) eqn:E; [|done].
    exfalso. apply Hk'. apply in_keys_get. by eexists.
  - intros H. by apply IH.
Qed.

Lemma get_del_ne k k' d : k ≠ k' → get k' (del k d) = get k' d.
Proof.
  intros Hne. induction d as [|[k0 v0] r IH]; simpl; [done|].
  destruct (decide (k = k0)) as [->|Hk]; simpl.
  - by rewrite decide_False.
  - by rewrite IH.
Qed.

End Facts.

(** In a list without duplicates a member occurs exactly once. *)
Lemma count_occ_NoDup (l : list string) k :
  NoDup l → k ∈ l → count_occ string_dec l k = 1%nat.
Proof.
  intros Hnd%NoDup_ListNoDup Hin%list_elem_of_In.
  pose proof (proj1 (List.NoDup_count_occ string_dec l) Hnd k) as Hle.
  pose proof (proj1 (count_occ_In string_dec l k) Hin). lia.
Qed.

End PyDictFacts.

Module TemplatesFacts.
Import PyStr PyDict PyDictFacts Templates.

Lemma NoDup_default_keys : NoDup (keys _get_default_templates).
Proof. apply NoDup_ListNoDup. repeat constructor; simpl; intuition discriminate. Qed.

Lemma NoDup_load_loop acc files :
  NoDup (keys acc) → NoDup (keys (load_loop acc files)).
Proof.
  revert acc. induction files as [|[stem [content|]] rest IH]; simpl; auto.
  intros acc H. apply IH. by apply NoDup_keys_set.
Qed.

Lemma NoDup_custom_keys dir : NoDup (keys (custom_templates (init dir))).
Proof.
  destruct dir as [files|]; simpl; [|constructor].
  apply NoDup_load_loop. constructor.
Qed.

(** The listing never names a template twice. *)
Lemma NoDup_list_templates dir : NoDup (list_templates (init dir)).
Proof.
  unfold list_templates, get_all_templates.
  apply NoDup_keys_update, NoDup_default_keys.
Qed.

(** A stem that names no file is not touched by the loading. *)
Lemma load_loop_absent acc files k :
  k ∉ fst <$> files → get k (load_loop acc files) = get k acc.
Proof.
  revert acc. induction files as [|[s [c|]] rest IH]; simpl; intros acc Hk; auto.
  apply not_elem_of_cons in Hk as [Hne Hk].
  rewrite IH by done. by apply get_set_ne.
Qed.

(** A readable file reached by the loop (every file before it is readable)
    and whose stem names no later file is stored under its stem with its
    content. *)
Lemma load_loop_lookup acc pre post stem content :
  all_readable pre → stem ∉ fst <$> post →
  get stem (load_loop acc (pre ++ (stem, Some content) :: post)) = Some content.
Proof.
  intros Hr Hpost. revert acc.
  induction pre as [|[s [c|]] rest IH]; simpl; intros acc.
  - rewrite load_loop_absent by done. apply get_set_eq.
  - apply Forall_cons in Hr as [_ Hr]. by apply IH.
  - apply Forall_cons in Hr as [[? [=]] _].
Qed.

Lemma custom_lookup pre post stem content :
  all_readable pre → NoDup (fst <$> (pre ++ (stem, Some content) :: post)) →
  get stem (custom_templates (init (Some (pre ++ (stem, Some content) :: post))))
  = Some content.
Proof.
  intros Hr Hnd. simpl. unfold _load_custom_templates.
  apply load_loop_lookup; [done|].
  rewrite fmap_app, fmap_cons in Hnd. simpl in Hnd.
  apply NoDup_app in Hnd as (_ & _ & Hnd). by apply NoDup_cons in Hnd as [? _].
Qed.

(** [get_template] consults the custom table first, under the lower-cased
    key, and falls back to the default table. *)
Lemma get_template_eq self t :
  get_template self t =
    match get (lower t) (custom_templates self) with
    | Some v => Some v
    | None => get (lower t) (default_templates self)
    end.
Proof. unfold get_template, mem. by destruct (get _ (custom_templates self)). Qed.

Lemma get_all_templates_custom dir k v :
  get k (custom_templates (init dir)) = Some v →
  get k (get_all_templates (init dir)) = Some v.
Proof.
  intros H. unfold get_all_templates.
  eapply get_update_present; [apply NoDup_custom_keys | done].
Qed.

Lemma list_templates_default dir k :
  is_Some (get k (default_templates (init dir))) → k ∈ list_templates (init dir).
Proof.
  intros Hd. unfold list_templates. apply in_keys_get.
  destruct (get k (custom_templates (init dir))) eqn:E.
  - erewrite get_all_templates_custom; [by eexists | done].
  - unfold get_all_templates. by rewrite get_update_absent.
Qed.

End TemplatesFacts.

(* ===================================================================== *)
(** ** Properties of the template store *)
(* ===================================================================== *)

Module TemplatesSpec.
Import PyStr PyStrFacts PyDict PyDictFacts Templates TemplatesFacts.

(** C5, as stated, fails.  With a file that cannot be read listed before
    [bug.md], the loading ends before it reaches [bug.md], and
    [get_template("bug")] returns the built-in template, not the content of
    the custom file. *)
Lemma C5_unreadable_file_before_bug :
  let dir := Some [("notes", None); ("bug", Some "custom bug")] in
  get_template (init dir) "bug" = get "bug" _get_default_templates
  ∧ is_Some (get "bug" _get_default_templates)
  ∧ get_template (init dir) "bug" ≠ Some "custom bug".
Proof. split_and!; [reflexivity | by eexists | discriminate]. Qed.

(** C5, amended.  Template override precedence.  There is a built-in
    template for the key [bug]; when the custom directory holds a file
    [bug.md] that the loading reaches (the files listed before it are
    readable, file names are distinct), [get_template("bug")] returns the
    content of that file as it is, and ["bug"] occurs exactly once in
    [list_templates()]. *)
Theorem C5_custom_bug_shadows_default (pre post : md_files) (content : string) :
  all_readable pre →
  NoDup (fst <$> listing pre "bug" content post) →
  let tm := init (Some (listing pre "bug" content post)) in
  is_Some (get "bug" (default_templates tm))
  ∧ get_template tm "bug" = Some content
  ∧ count_occ string_dec (list_templates tm) "bug" = 1%nat.
Proof.
  intros Hr Hnd tm.
  assert (Hc : get "bug" (custom_templates tm) = Some content)
    by (by apply custom_lookup).
  split_and!.
  - by eexists.
  - rewrite get_template_eq. change (lower "bug") with "bug". by rewrite Hc.
  - apply count_occ_NoDup; [apply NoDup_list_templates|].
    apply list_templates_default. by eexists.
Qed.

Lemma C5_custom_bug_shadows_default_witness :
  let pre := [("story", Some "custom story")] in
  let post := [("Epic", None)] in
  (all_readable pre ∧ NoDup (fst <$> listing pre "bug" "custom bug" post))
  ∧ (let tm := init (Some (listing pre "bug" "custom bug" post)) in
     is_Some (get "bug" (default_templates tm))
     ∧ get_template tm "bug" = Some "custom bug"
     ∧ count_occ string_dec (list_templates tm) "bug" = 1%nat).
Proof.
  intros pre post.
  assert (H1 : all_readable pre) by (repeat constructor; by eexists).
  assert (H2 : NoDup (fst <$> listing pre "bug" "custom bug" post))
    by (apply (bool_decide_unpack _); vm_compute; exact I).
  split; [by split|].
  exact (C5_custom_bug_shadows_default pre post "custom bug" H1 H2).
Defined.

(** C9, as stated, fails.  The stem of [ℝ.md] is an upper-case letter,
    but lower-casing leaves it as it is, so [get_template] on that very
    spelling finds the custom entry and returns its content; taking the
    entry out changes the answer. *)
Lemma C9_capital_without_small_form :
  let stem := double_struck_capital_R in
  let tm := init (Some [(stem, Some "reals")]) in
  lower stem = stem
  ∧ get stem (custom_templates tm) = Some "reals"
  ∧ get_template tm stem = Some "reals"
  ∧ get_template tm stem ≠ get_template (without_custom stem tm) stem.
Proof. split_and!; [reflexivity | reflexivity | reflexivity | discriminate]. Qed.

(** C9, amended.  A custom template file whose stem contains one of the
    ASCII capitals A to Z, once loaded, is stored under the stem as found
    on disk; no input makes [get_template] consult that entry (the key it
    looks up is lower-cased, so every result is the same with the entry
    taken out); the stem is nevertheless a key of [get_all_templates()]
    and a member of [list_templates()], next to the lower-case built-in
    key of the same spelling when there is one. *)
Theorem C9_uppercase_stem_unreachable
    (pre post : md_files) (stem content : string) :
  has_upper stem = true →
  all_readable pre →
  NoDup (fst <$> listing pre stem content post) →
  let tm := init (Some (listing pre stem content post)) in
  get stem (custom_templates tm) = Some content
  ∧ (∀ issue_type, lower issue_type ≠ stem)
  ∧ (∀ issue_type,
       get_template tm issue_type = get_template (without_custom stem tm) issue_type)
  ∧ get stem (get_all_templates tm) = Some content
  ∧ stem ∈ list_templates tm
  ∧ (is_Some (get (lower stem) (default_templates tm)) →
       lower stem ∈ list_templates tm ∧ lower stem ≠ stem).
Proof.
  intros Hup Hr Hnd tm.
  assert (Hc : get stem (custom_templates tm) = Some content)
    by (by apply custom_lookup).
  assert (Hne : ∀ t, lower t ≠ stem) by (intros t; by apply lower_neq_upper).
  split_and!; try done.
  - intros t. rewrite !get_template_eq. simpl.
    rewrite get_del_ne; [done|]. intros E. by apply (Hne t).
  - by apply get_all_templates_custom.
  - apply in_keys_get. exists content. by apply get_all_templates_custom.
  - intros Hd. split; [by apply list_templates_default | apply Hne].
Qed.

Lemma C9_uppercase_stem_unreachable_witness :
  let pre := [("story", Some "custom story")] in
  let post := [("notes", None)] in
  (has_upper "Bug" = true ∧ all_readable pre
   ∧ NoDup (fst <$> listing pre "Bug" "custom Bug" post))
  ∧ (let tm := init (Some (listing pre "Bug" "custom Bug" post)) in
     get "Bug" (custom_templates tm) = Some "custom Bug"
     ∧ (∀ issue_type, lower issue_type ≠ "Bug")
     ∧ (∀ issue_type,
          get_template tm issue_type
          = get_template (without_custom "Bug" tm) issue_type)
     ∧ get "Bug" (get_all_templates tm) = Some "custom Bug"
     ∧ "Bug" ∈ list_templates tm
     ∧ (is_Some (get (lower "Bug") (default_templates tm)) →
          lower "Bug" ∈ list_templates tm ∧ lower "Bug" ≠ "Bug")).
Proof.
  intros pre post.
  assert (H0 : has_upper "Bug" = true) by reflexivity.
  assert (H1 : all_readable pre) by (repeat constructor; by eexists).
  assert (H2 : NoDup (fst <$> listing pre "Bug" "custom Bug" post))
    by (apply (bool_decide_unpack _); vm_compute; exact I).
  split; [by split_and!|].
  exact (C9_uppercase_stem_unreachable pre post "Bug" "custom Bug" H0 H1 H2).
Defined.

(** The listing of the example: the built-in [bug] and the custom [Bug]
    are both named, each once. *)
Example list_templates_Bug :
  list_templates (init (Some [("Bug", Some "custom Bug")]))
  = ["story"; "bug"; "task"; "spike"; "epic"; "Bug"].
Proof. reflexivity. Qed.

Example get_template_Bug :
  get_template (init (Some [("Bug", Some "custom Bug")])) "Bug"
  = get "bug" _get_default_templates.
Proof. reflexivity. Qed.

End TemplatesSpec.

(* ===================================================================== *)
(** ** Properties of the adapter *)
(* ===================================================================== *)

Module JiraClientFacts.
Import PyStr PyStrFacts Py JiraClient.

Lemma app_assoc3 (a b c : string) : (a +:+ b) +:+ c = a +:+ b +:+ c.
Proof.
  induction a as [|x a IH]; [done|].
  change (String x ((a +:+ b) +:+ c) = String x (a +:+ b +:+ c)).
  by rewrite IH.
Qed.

(** The query built by [search_issues], case by case. *)
Lemma search_jql_cases query project :
  search_jql query project = jql_as_built query project.
Proof.
  unfold search_jql, jql_as_built, jql_by_cases.
  rewrite blank_truthy_strip.
  destruct (blank query), project as [[|c p]|]; simpl; try reflexivity;
    unfold text_clause, project_clause; by rewrite !app_assoc3.
Qed.

(** Building the dictionaries of the issues found makes no library call. *)
Lemma for_each_issue_info_log self issues log :
  (for_each (issue_info self) issues log).2 = log.
Proof.
  induction issues as [|i r IH]; [done|].
  cbn [for_each]. unfold bind at 1.
  unfold issue_info at 1, get_issue_url, getitem, bind at 1.
  destruct (config self !! "jira_url"); cbn; [|done].
  unfold bind.
  destruct (for_each (issue_info self) r log) as [[e|bs] l'] eqn:E;
    simpl in *; done.
Qed.

(** [search_issues] makes one library call, whatever comes of it. *)
Lemma search_issues_log env self query project max_results log :
  (search_issues env self query project max_results log).2
  = log ++ [CallSearchIssues (search_jql query project) max_results search_fields].
Proof.
  unfold search_issues, try_except, bind, invoke.
  destruct (lib_search_issues _ _ _ _ _) as [e|issues]; simpl; [done|].
  pose proof (for_each_issue_info_log self issues
    (log ++ [CallSearchIssues (search_jql query project) max_results
               search_fields])) as H.
  destruct (for_each _ _ _) as [[e|bs] l']; simpl in *; done.
Qed.

(** The table lookup of [create_issue] agrees with the cases of the
    specification. *)
Lemma jira_issue_type_spec issue_type :
  jira_issue_type issue_type = spec_remote_type_name issue_type.
Proof.
  unfold jira_issue_type, spec_remote_type_name.
  rewrite <- lower_table, <- capitalize_table.
  repeat case_decide;
    try match goal with H : lower _ = _ |- _ => by rewrite H end.
  unfold issue_type_map.
  by rewrite !lookup_insert_ne, lookup_singleton_ne.
Qed.

(** [create_issue] makes one library call, with [issue_dict] as payload. *)
Lemma create_issue_log env self project issue_type summary description
    priority assignee log :
  (create_issue env self project issue_type summary description
     priority assignee log).2
  = log ++ [CallCreateIssue
              (issue_dict project issue_type summary description priority assignee)].
Proof.
  unfold create_issue, try_except, bind, invoke.
  by destruct (lib_create_issue _ _ _).
Qed.


Lemma issue_dict_priority project issue_type summary description priority assignee :
  issue_dict project issue_type summary description priority assignee !! "priority"
  = named_entry priority.
Proof.
  unfold issue_dict.
  destruct priority as [[|? ?]|], assignee as [[|? ?]|]; simpl;
    rewrite ?lookup_insert_eq, ?(lookup_insert_ne _ "assignee") by done;
    by rewrite ?lookup_insert_eq.
Qed.

Lemma issue_dict_assignee project issue_type summary description priority assignee :
  issue_dict project issue_type summary description priority assignee !! "assignee"
  = named_entry assignee.
Proof.
  unfold issue_dict.
  destruct priority as [[|? ?]|], assignee as [[|? ?]|]; simpl;
    by rewrite ?lookup_insert_eq, ?lookup_insert_ne.
Qed.

(** What [_connect] does once the server address is known: it calls the
    constructor with the preferred authentication, or raises. *)
Lemma connect_preferred env config log server :
  config !! "jira_url" = Some server →
  _connect env config log =
    match preferred_auth config with
    | Some a =>
        let args :=
          {| options_server := server; options_check_update := false;
             credentials := a;
             get_server_info :=
               match a with token_auth _ => false | basic_auth _ _ => true end;
             proxies :=
               match config !! "proxy" with
               | Some p => Some {[ "http" := p; "https" := p ]}
               | None => None
               end |} in
        (match lib_JIRA env log args with inl e => inl e | inr _ => inr args end,
         log ++ [CallJIRA args])
    | None => (inl (ValueError invalid_config_message), log)
    end.
Proof.
  intros Hs. unfold _connect, preferred_auth, bind, getitem, has, JIRA, invoke, bind.
  rewrite Hs. cbn.
  destruct (config !! "proxy") as [p|]; cbn;
    destruct (config !! "token") as [t|]; cbn;
    try (by destruct (lib_JIRA _ _ _) as [?|[]]);
    destruct (config !! "email") as [e|], (config !! "api_token") as [k|]; cbn;
    try (by destruct (lib_JIRA _ _ _) as [?|[]]);
    destruct (config !! "username") as [u|], (config !! "password") as [w|]; cbn;
    try (by destruct (lib_JIRA _ _ _) as [?|[]]); done.
Qed.

Lemma connect_no_server env config log :
  config !! "jira_url" = None →
  _connect env config log = (inl (KeyError "jira_url"), log).
Proof. intros Hs. unfold _connect, bind, getitem. by rewrite Hs. Qed.

Lemma shape_count_0 config :
  shape_count config = 0%nat → preferred_auth config = None.
Proof.
  unfold shape_count, has_token_shape, has_cloud_shape, has_basic_shape,
    has, preferred_auth.
  destruct (config !! "token"), (config !! "email"), (config !! "api_token"),
    (config !! "username"), (config !! "password"); simpl; done || lia.
Qed.

Lemma shape_count_pos config :
  (0 < shape_count config)%nat → is_Some (preferred_auth config).
Proof.
  unfold shape_count, has_token_shape, has_cloud_shape, has_basic_shape,
    has, preferred_auth.
  destruct (config !! "token"), (config !! "email"), (config !! "api_token"),
    (config !! "username"), (config !! "password"); simpl; eauto; lia.
Qed.

End JiraClientFacts.

Module JiraClientSpec.
Import PyStr PyStrFacts Py JiraClient JiraClientFacts.

(** C2, as stated, fails.  A query of one space is not empty, and with no
    project the claim asks for a text-only filter; [search_issues] builds
    the unfiltered query, because a blank query counts as no query.  In the
    same way an empty project string, although given, adds no clause. *)
Lemma C2_blank_query_is_unfiltered :
  search_jql " " None = "ORDER BY updated DESC"
  ∧ jql_as_claimed " " None
    = "(summary ~ " +:+ dq +:+ " " +:+ dq +:+ " OR description ~ "
      +:+ dq +:+ " " +:+ dq +:+ ") ORDER BY updated DESC"
  ∧ search_jql " " None ≠ jql_as_claimed " " None
  ∧ search_jql EmptyString (Some EmptyString)
    ≠ jql_as_claimed EmptyString (Some EmptyString).
Proof. split_and!; [reflexivity | reflexivity | discriminate | discriminate]. Qed.

(** C2, amended.  For a query text of ASCII characters, [search_issues]
    sends one query, built in exactly four cases decided on whether the
    query text is non-blank (it holds a character that is not whitespace)
    and whether a non-empty project is given: project-only filter,
    text-only clause on summary OR description, both joined by AND, or no
    filter at all; in every case the query ends with the ordering by last
    update, descending. *)
Theorem C2_search_query_cases env self query project max_results log :
  ascii_only query = true →
  (search_issues env self query project max_results log).2
  = log ++ [CallSearchIssues (jql_as_built query project) max_results search_fields]
  ∧ ∃ filter, jql_as_built query project = filter +:+ order_clause.
Proof.
  intros _. split.
  - by rewrite search_issues_log, search_jql_cases.
  - unfold jql_as_built, jql_by_cases.
    destruct (negb (blank query)), (if truthy_opt project then project else None).
    + eexists (text_clause query +:+ " AND " +:+ project_clause _ +:+ " ").
      by rewrite !app_assoc3.
    + exists (text_clause query +:+ " "). by rewrite !app_assoc3.
    + eexists (project_clause _ +:+ " "). by rewrite !app_assoc3.
    + by exists EmptyString.
Qed.

Lemma C2_search_query_cases_witness :
  let env := example_env None (inr []) in
  ascii_only "login" = true
  ∧ (search_issues env example_client "login" (Some "X") 10 []).2
    = [] ++ [CallSearchIssues (jql_as_built "login" (Some "X")) 10 search_fields]
  ∧ ∃ filter, jql_as_built "login" (Some "X") = filter +:+ order_clause.
Proof.
  intros env.
  assert (H : ascii_only "login" = true) by reflexivity.
  split; [exact H|].
  exact (C2_search_query_cases env example_client "login" (Some "X") 10 [] H).
Defined.

Example search_jql_project_only :
  search_jql EmptyString (Some "X") = "project = X ORDER BY updated DESC".
Proof. reflexivity. Qed.

Example search_jql_text_only :
  search_jql "login" None
  = "(summary ~ " +:+ dq +:+ "login" +:+ dq +:+ " OR description ~ "
    +:+ dq +:+ "login" +:+ dq +:+ ") ORDER BY updated DESC".
Proof. reflexivity. Qed.

Example search_jql_both :
  search_jql "login" (Some "X")
  = "(summary ~ " +:+ dq +:+ "login" +:+ dq +:+ " OR description ~ "
    +:+ dq +:+ "login" +:+ dq +:+ ") AND project = X ORDER BY updated DESC".
Proof. reflexivity. Qed.

Example search_jql_unfiltered :
  search_jql EmptyString None = "ORDER BY updated DESC".
Proof. reflexivity. Qed.



Example spec_name_of_table_key : spec_remote_type_name "SubTask" = "Sub-task".
Proof. reflexivity. Qed.

Example spec_name_capitalized : spec_remote_type_name "weirdType" = "Weirdtype".
Proof. reflexivity. Qed.

Example remote_type_bug : jira_issue_type "bug" = "Bug".
Proof. reflexivity. Qed.

Example remote_type_mixed_case : jira_issue_type "SubTask" = "Sub-task".
Proof. reflexivity. Qed.

Example remote_type_weirdtype : jira_issue_type "weirdtype" = "Weirdtype".
Proof. reflexivity. Qed.

Example remote_type_lowercases_rest : jira_issue_type "weirdType" = "Weirdtype".
Proof. reflexivity. Qed.

(** C7, as stated, fails.  A priority supplied as the empty string is a
    supplied priority, yet the payload sent holds no [priority] field. *)
Lemma C7_empty_priority_omitted :
  let payload :=
    issue_dict "PROJ" "bug" "s" "d" (Some EmptyString) None in
  (create_issue (example_env None (inr [])) example_client
     "PROJ" "bug" "s" "d" (Some EmptyString) None []).2
  = [CallCreateIssue payload]
  ∧ payload !! "priority" = None
  ∧ payload !! "priority" ≠ named_entry_if_supplied (Some EmptyString).
Proof. split_and!; [reflexivity | reflexivity | discriminate]. Qed.

(** C7, amended.  The payload sent by [create_issue] has no [priority]
    field when the priority is not supplied or is the empty string, and
    has the field [{"name": priority}] when a non-empty priority is
    supplied; likewise for [assignee]. *)
Theorem C7_optional_fields env self project issue_type summary description
    priority assignee log :
  ∃ payload,
    (create_issue env self project issue_type summary description
       priority assignee log).2 = log ++ [CallCreateIssue payload]
    ∧ payload !! "priority" = named_entry priority
    ∧ payload !! "assignee" = named_entry assignee.
Proof.
  eexists. split_and!;
    [apply create_issue_log | apply issue_dict_priority | apply issue_dict_assignee].
Qed.

(** C4, as stated, fails.  A configuration with two credential shapes (a
    token, and a user name with a password) connects: the code does not ask
    for exactly one shape. *)
Lemma C4_two_shapes_connect :
  shape_count example_config = 2%nat
  ∧ _connect (example_env None (inr [])) example_config []
    = (inr (jira example_client), [CallJIRA (jira example_client)])
  ∧ ¬ (∀ env config log r log',
         _connect env config log = (inr r, log') → shape_count config = 1%nat).
Proof.
  assert (H : _connect (example_env None (inr [])) example_config []
              = (inr (jira example_client), [CallJIRA (jira example_client)]))
    by reflexivity.
  split_and!; [reflexivity | exact H |].
  intros Hall. specialize (Hall _ _ _ _ _ H). vm_compute in Hall. discriminate.
Qed.

(** C4, amended.  At least one of the three credential shapes must be
    present (more than one is accepted): connecting with a configuration
    that holds none of them raises an error and makes no call to the
    library, so no connection is attempted; the error is the [ValueError]
    on the invalid configuration when the server address is present.  The
    same holds for the construction of the client from such a
    configuration file. *)
Theorem C4_no_credentials_no_connection env config log :
  shape_count config = 0%nat →
  (∃ e, _connect env config log = (inl e, log)
        ∧ (is_Some (config !! "jira_url") →
           e = ValueError invalid_config_message))
  ∧ (config_file env = Some config →
     ∃ e, JiraClient.init env log = (inl e, log)).
Proof.
  intros H0%shape_count_0.
  assert (Hc : ∃ e, _connect env config log = (inl e, log)
                    ∧ (is_Some (config !! "jira_url") →
                       e = ValueError invalid_config_message)).
  { destruct (config !! "jira_url") as [server|] eqn:Hs.
    - rewrite (connect_preferred _ _ _ server Hs), H0. by eexists.
    - rewrite connect_no_server by done. eexists. split; [done|].
      by intros [? ?]. }
  split; [exact Hc|].
  intros Hf. destruct Hc as (e & Hc & _). exists e.
  unfold JiraClient.init, _load_config, bind. rewrite Hf. cbn.
  unfold bind. by rewrite Hc.
Qed.

Lemma C4_no_credentials_no_connection_witness :
  let config : gmap string string :=
    {[ "jira_url" := "https://jira.example.com"; "email" := "a@example.com" ]} in
  let env := example_env (Some config) (inr []) in
  shape_count config = 0%nat
  ∧ (∃ e, _connect env config [] = (inl e, [])
          ∧ (is_Some (config !! "jira_url") →
             e = ValueError invalid_config_message))
  ∧ (config_file env = Some config →
     ∃ e, JiraClient.init env [] = (inl e, [])).
Proof.
  intros config env.
  assert (H0 : shape_count config = 0%nat) by reflexivity.
  split; [exact H0|].
  exact (C4_no_credentials_no_connection env config [] H0).
Defined.

(** C10. A configuration with more than one credential shape (and a
    server address) does not make connecting fail: the constructor of the
    library is called once and its outcome is the outcome of connecting.
    The authentication passed is the token whenever the key [token] is
    present, otherwise e-mail and API token whenever both keys are present,
    otherwise user name and password; the other shapes present play no
    part. *)
Theorem C10_auth_preference env config log server :
  (1 < shape_count config)%nat →
  config !! "jira_url" = Some server →
  ∃ args,
    _connect env config log
    = (match lib_JIRA env log args with inl e => inl e | inr _ => inr args end,
       log ++ [CallJIRA args])
    ∧ options_server args = server
    ∧ preferred_auth config = Some (credentials args)
    ∧ (∀ token, config !! "token" = Some token →
         credentials args = token_auth token)
    ∧ (config !! "token" = None →
       ∀ email api_token,
         config !! "email" = Some email →
         config !! "api_token" = Some api_token →
         credentials args = basic_auth email api_token)
    ∧ (config !! "token" = None →
       config !! "email" = None ∨ config !! "api_token" = None →
       ∃ username password,
         config !! "username" = Some username
         ∧ config !! "password" = Some password
         ∧ credentials args = basic_auth username password).
Proof.
  intros Hn Hs.
  destruct (shape_count_pos config) as [a Ha]; [lia|].
  rewrite (connect_preferred _ _ _ server Hs), Ha.
  eexists. split; [reflexivity|]. cbn. split_and!; try done.
  - intros token Ht. unfold preferred_auth in Ha. rewrite Ht in Ha. congruence.
  - intros Ht email api_token He Hk. unfold preferred_auth in Ha.
    rewrite Ht, He, Hk in Ha. congruence.
  - intros Ht Hek. unfold preferred_auth in Ha. rewrite Ht in Ha.
    destruct (config !! "username") as [u|], (config !! "password") as [w|];
      destruct Hek as [Hek|Hek]; rewrite Hek in Ha;
      try destruct (config !! "email"); try destruct (config !! "api_token");
      try discriminate; eexists _, _; split_and!; try done; congruence.
Qed.

Lemma C10_auth_preference_witness :
  let env := example_env None (inr []) in
  ((1 < shape_count example_config)%nat
   ∧ example_config !! "jira_url" = Some "https://jira.example.com")
  ∧ ∃ args,
      _connect env example_config []
      = (match lib_JIRA env [] args with inl e => inl e | inr _ => inr args end,
         [] ++ [CallJIRA args])
      ∧ options_server args = "https://jira.example.com"
      ∧ preferred_auth example_config = Some (credentials args)
      ∧ (∀ token, example_config !! "token" = Some token →
           credentials args = token_auth token)
      ∧ (example_config !! "token" = None →
         ∀ email api_token,
           example_config !! "email" = Some email →
           example_config !! "api_token" = Some api_token →
           credentials args = basic_auth email api_token)
      ∧ (example_config !! "token" = None →
         example_config !! "email" = None ∨ example_config !! "api_token" = None →
         ∃ username password,
           example_config !! "username" = Some username
           ∧ example_config !! "password" = Some password
           ∧ credentials args = basic_auth username password).
Proof.
  intros env.
  assert (H1 : (1 < shape_count example_config)%nat) by (vm_compute; lia).
  assert (H2 : example_config !! "jira_url" = Some "https://jira.example.com")
    by reflexivity.
  split; [by split|].
  exact (C10_auth_preference env example_config [] _ H1 H2).
Defined.

Example auth_token_first :
  preferred_auth example_config = Some (token_auth "t0k3n").
Proof. reflexivity. Qed.

Example auth_cloud_before_basic :
  preferred_auth
    {[ "jira_url" := "https://jira.example.com";
       "email" := "a@example.com"; "api_token" := "k";
       "username" := "alice"; "password" := "secret" ]}
  = Some (basic_auth "a@example.com" "k").
Proof. reflexivity. Qed.

(** C8. [get_project_metadata] first fetches the project: when that call
    fails (the project does not exist) the operation fails with the cause
    and nothing else is asked; when the three calls succeed, the priorities
    and the issue types returned are the names answered by the calls
    [priorities()] and [issue_types()], which carry no project: they are
    the remote system's global lists. *)
Theorem C8_project_metadata env self project_key log :
  (∀ e, lib_project env log project_key = inl e →
     get_project_metadata env self project_key log
     = (inl (Exception ("Failed to get project metadata: " +:+ str_exn e)),
        log ++ [CallProject project_key]))
  ∧ (∀ project priorities issue_types,
       lib_project env log project_key = inr project →
       lib_priorities env (log ++ [CallProject project_key]) = inr priorities →
       lib_issue_types env (log ++ [CallProject project_key; CallPriorities])
       = inr issue_types →
       get_project_metadata env self project_key log
       = (inr {| meta_project :=
                   (JiraClient.project_key project, project_name project);
                 meta_priorities := map priority_label priorities;
                 meta_issue_types := map issue_type_label issue_types |},
          log ++ [CallProject project_key; CallPriorities; CallIssueTypes])).
Proof.
  split.
  - intros e He. unfold get_project_metadata, try_except, bind, invoke.
    by rewrite He.
  - intros project priorities issue_types Hp Hq Ht.
    unfold get_project_metadata, try_except, bind, invoke.
    rewrite Hp, Hq. rewrite <- !(assoc_L (++)). cbn [app].
    rewrite Ht. cbn. done.
Qed.

Lemma C8_project_metadata_witness :
  let env := example_env None (inr []) in
  get_project_metadata env example_client "PROJ" []
  = (inr {| meta_project := ("PROJ", "Project");
            meta_priorities := ["High"; "Low"];
            meta_issue_types := ["Bug"; "Story"] |},
     [CallProject "PROJ"; CallPriorities; CallIssueTypes])
  ∧ get_project_metadata env example_client "NOPE" []
    = (inl (Exception ("Failed to get project metadata: "
                       +:+ "No project could be found with key NOPE")),
       [CallProject "NOPE"]).
Proof.
  intros env. split.
  - exact (proj2 (C8_project_metadata env example_client "PROJ" []) _ _ _
             eq_refl eq_refl eq_refl).
  - exact (proj1 (C8_project_metadata env example_client "NOPE" []) _ eq_refl).
Defined.

End JiraClientSpec.
(* ===================================================================== *)
(** ** Properties of the dispatcher *)
(* ===================================================================== *)

Module ServerFacts.
Import PyStr Py JiraClient JiraClientFacts Server.

(** The handler table has an entry for each declared tool, and no other. *)
Lemma handlers_unknown env tool :
  tool ∉ tool_names → handlers env !! tool = None.
Proof.
  unfold tool_names. cbn. intros H.
  repeat (apply not_elem_of_cons in H as [? H]).
  unfold handlers. by rewrite !lookup_insert_ne, lookup_singleton_ne.
Qed.

Lemma handlers_known env tool :
  tool ∈ tool_names → is_Some (handlers env !! tool).
Proof.
  unfold tool_names. cbn. intros H.
  repeat (apply elem_of_cons in H as [->|H]); try (by eexists).
  by apply elem_of_nil in H.
Qed.

Lemma handlers_search env :
  handlers env !! "search_jira_issues" = Some (_search_jira_issues env).
Proof. reflexivity. Qed.

(** A failing library search makes [search_issues] raise the wrapped
    error, after that one call. *)
Lemma search_issues_failure env self query project max_results log e :
  lib_search_issues env log (search_jql query project) max_results search_fields
  = inl e →
  search_issues env self query project max_results log
  = (inl (Exception ("Failed to search Jira issues: " +:+ str_exn e)),
     log ++ [CallSearchIssues (search_jql query project) max_results search_fields]).
Proof.
  intros He. unfold search_issues, try_except, bind, invoke. by rewrite He.
Qed.

(** The only error channel of [call_tool]: an exception raised by the
    body is returned as one text block. *)
Lemma call_tool_error env tool args st e st' :
  dispatch env tool args st = (inl e, st') →
  call_tool env tool args st = (text_block ("Error: " +:+ str_exn e), st').
Proof. intros H. unfold call_tool. by rewrite H. Qed.

Lemma call_tool_response env tool args st response st' :
  dispatch env tool args st = (inr response, st') →
  call_tool env tool args st = (response, st').
Proof. intros H. unfold call_tool. by rewrite H. Qed.

End ServerFacts.

Module ServerSpec.
Import PyStr Py JiraClient JiraClientFacts Server ServerFacts.

(** C1, as stated, fails.  For the unknown name [nope] the text of the
    response is not exactly [Unknown tool: nope]: the dispatcher turns the
    error it raised into a block that starts with [Error: ]. *)
Lemma C1_unknown_tool_text_has_prefix :
  ("nope" ∉ tool_names)
  ∧ (call_tool (example_env None (inr [])) "nope" no_arguments fresh_state).1
    = [ {| type := "text"; text := "Error: Unknown tool: nope" |} ]
  ∧ (call_tool (example_env None (inr [])) "nope" no_arguments fresh_state).1
    ≠ [ {| type := "text"; text := "Unknown tool: nope" |} ].
Proof.
  split_and!; [|reflexivity|discriminate].
  unfold tool_names. cbn. intros H.
  repeat (apply elem_of_cons in H as [?|H]; [discriminate|]).
  by apply elem_of_nil in H.
Qed.

(** C1, amended.  For every name that is not one of the six registered
    tool names and every argument mapping, [call_tool] returns (it does
    not raise) a response of one text block whose text is exactly
    [Error: Unknown tool: ] followed by the name; the server is left as it
    was and no library call is made. *)
Theorem C1_unknown_tool env tool args st :
  tool ∉ tool_names →
  call_tool env tool args st
  = ([ {| type := "text"; text := "Error: Unknown tool: " +:+ tool |} ], st).
Proof.
  intros H. unfold call_tool, dispatch. by rewrite handlers_unknown.
Qed.

Lemma C1_unknown_tool_witness :
  ("delete_jira_issue" ∉ tool_names)
  ∧ call_tool (example_env None (inr [])) "delete_jira_issue" no_arguments
      fresh_state
    = ([ {| type := "text";
            text := "Error: Unknown tool: " +:+ "delete_jira_issue" |} ],
       fresh_state).
Proof.
  assert (H : "delete_jira_issue" ∉ tool_names).
  { apply (bool_decide_unpack _). vm_compute. exact I. }
  split; [exact H|].
  exact (C1_unknown_tool (example_env None (inr [])) "delete_jira_issue"
           no_arguments fresh_state H).
Defined.

(** C6. When the tool [search_jira_issues] reaches the library search (a
    client is at hand or can be built, and the query is present) and that
    call raises, [call_tool] returns one text block whose text is
    [Error: Failed to search Jira issues: ] followed by the text of the
    cause.  The call returns normally, with the server in a state from
    which the next call is served: the client stays in place and the log
    holds the failed search. *)
Theorem C6_search_failure_is_reported env args st client st1 query e :
  ensure_client env st = (inr client, st1) →
  str_args args !! "query" = Some query →
  lib_search_issues env (log st1)
    (search_jql query (str_args args !! "project"))
    (default 10 (max_results args)) search_fields = inl e →
  call_tool env "search_jira_issues" args st
  = ([ {| type := "text";
          text := "Error: Failed to search Jira issues: " +:+ str_exn e |} ],
     {| server := server st1;
        log := log st1
               ++ [CallSearchIssues
                     (search_jql query (str_args args !! "project"))
                     (default 10 (max_results args)) search_fields] |}).
Proof.
  intros Hc Hq He.
  unfold call_tool, dispatch. rewrite handlers_search.
  unfold _search_jira_issues, bind. rewrite Hc.
  unfold getitem. rewrite Hq. cbn.
  unfold on_log. by rewrite (search_issues_failure _ _ _ _ _ _ e He).
Qed.

Lemma C6_search_failure_is_reported_witness :
  let env := example_env (Some example_config)
               (inl (LibraryError "HTTP 400: bad JQL")) in
  let args := {| str_args := {[ "query" := "login" ]}; max_results := None |} in
  let st1 := {| server := {| template_manager := Templates.init None;
                             jira_client := Some example_client |};
                log := [CallJIRA (jira example_client)] |} in
  (ensure_client env fresh_state = (inr example_client, st1)
   ∧ str_args args !! "query" = Some "login")
  ∧ call_tool env "search_jira_issues" args fresh_state
    = ([ {| type := "text";
            text := "Error: Failed to search Jira issues: "
                    +:+ "HTTP 400: bad JQL" |} ],
       {| server := server st1;
          log := log st1
                 ++ [CallSearchIssues (search_jql "login" None) 10 search_fields] |}).
Proof.
  intros env args st1.
  assert (H1 : ensure_client env fresh_state = (inr example_client, st1))
    by reflexivity.
  assert (H2 : str_args args !! "query" = Some "login") by reflexivity.
  split; [by split|].
  exact (C6_search_failure_is_reported env args fresh_state example_client st1
           "login" (LibraryError "HTTP 400: bad JQL") H1 H2 eq_refl).
Defined.

(** Two runs of the dispatcher on the example environment. *)
Example search_without_query_argument :
  (call_tool (example_env (Some example_config) (inr []))
     "search_jira_issues" no_arguments fresh_state).1
  = [ {| type := "text"; text := "Error: " +:+ sq +:+ "query" +:+ sq |} ].
Proof. reflexivity. Qed.

Example metadata_of_example_project :
  (call_tool (example_env (Some example_config) (inr []))
     "get_project_metadata"
     {| str_args := {[ "project_key" := "PROJ" ]}; max_results := None |}
     fresh_state).1
  = [ {| type := "text";
         text := "# PROJ - Project" +:+ nl +:+ nl
                 +:+ "## Available Priorities" +:+ nl
                 +:+ "- High" +:+ nl +:+ "- Low" +:+ nl +:+ nl
                 +:+ "## Available Issue Types" +:+ nl
                 +:+ "- Bug" +:+ nl +:+ "- Story" +:+ nl |} ].
Proof. reflexivity. Qed.

End ServerSpec.
(* ===================================================================== *)
(** ** Further properties of the template store *)
(* ===================================================================== *)

Module TemplatesMore.
Import PyStr PyStrFacts PyDict PyDictFacts Templates TemplatesFacts.

Lemma lower_char_lower_char c : lower_char (lower_char c) = lower_char c.
Proof. by destruct c as [[] [] [] [] [] [] [] []]. Qed.

Lemma lower_char_upper_char c : lower_char (upper_char c) = lower_char c.
Proof. by destruct c as [[] [] [] [] [] [] [] []]. Qed.

Lemma upper_char_lower_char c : upper_char (lower_char c) = upper_char c.
Proof. by destruct c as [[] [] [] [] [] [] [] []]. Qed.

Lemma upper_char_upper_char c : upper_char (upper_char c) = upper_char c.
Proof. by destruct c as [[] [] [] [] [] [] [] []]. Qed.

Lemma lower_lower s : lower (lower s) = lower s.
Proof. induction s as [|c r IH]; simpl; [done|]. by rewrite lower_char_lower_char, IH. Qed.

Lemma lower_upper s : lower (upper s) = lower s.
Proof. induction s as [|c r IH]; simpl; [done|]. by rewrite lower_char_upper_char, IH. Qed.

Lemma lower_char_id c : is_upper c = false → lower_char c = c.
Proof. unfold lower_char. by intros ->. Qed.

Lemma lower_id s : has_upper s = false → lower s = s.
Proof.
  induction s as [|c r IH]; simpl; [done|].
  intros [Hc Hr]%orb_false_iff. by rewrite lower_char_id, IH.
Qed.

Lemma filter_agree (P Q : string → Prop) `{!∀ x, Decision (P x)}
    `{!∀ x, Decision (Q x)} (l : list string) :
  (∀ x, x ∈ l → (P x ↔ Q x)) → filter P l = filter Q l.
Proof.
  induction l as [|x l IH]; intros Hl; [done|].
  rewrite !filter_cons.
  destruct (decide (P x)) as [HP|HP], (decide (Q x)) as [HQ|HQ].
  - f_equal. apply IH. intros y Hy. apply Hl. by right.
  - exfalso. apply HQ, Hl; [by left|done].
  - exfalso. apply HP, Hl; [by left|done].
  - apply IH. intros y Hy. apply Hl. by right.
Qed.

(** The keys after [update]: those of the updated dictionary, in place,
    followed by the new keys in the order of the update. *)
Lemma keys_update {V} (d e : dict V) :
  NoDup (keys e) →
  keys (update d e) = keys d ++ filter (λ k, k ∉ keys d) (keys e).
Proof.
  unfold update. revert d.
  induction e as [|[k v] r IH]; intros d Hnd.
  - cbn. by rewrite app_nil_r.
  - apply NoDup_cons in Hnd as [Hk Hr]. cbn [fold_left fst snd].
    change (keys ((k, v) :: r)) with (k :: keys r).
    rewrite IH by done. destruct (get k d) eqn:E.
    + rewrite keys_set_present by (by eexists).
      rewrite filter_cons_False; [done|].
      intros Hn. apply Hn. apply in_keys_get. by eexists.
    + rewrite keys_set_absent by done.
      rewrite filter_cons_True.
      2:{ intros [? ?]%in_keys_get. congruence. }
      rewrite <- (assoc_L (++)). cbn [app]. do 2 f_equal.
      apply filter_agree. intros x Hx.
      rewrite not_elem_of_app, list_elem_of_singleton.
      split; [tauto|]. intros Hd. split; [done|]. by intros ->.
Qed.

Lemma load_loop_stop acc pre stem post :
  load_loop acc (pre ++ (stem, None) :: post) = load_loop acc pre.
Proof.
  revert acc. induction pre as [|[s [c|]] rest IH]; intros acc; simpl; auto.
Qed.

(** X1. Whatever the custom directory holds (or when it does not exist),
    [list_templates()] names no template twice. *)
Theorem X1_list_templates_no_duplicates (dir : option md_files) :
  NoDup (list_templates (init dir)).
Proof.
  unfold list_templates, get_all_templates.
  apply NoDup_keys_update, NoDup_default_keys.
Qed.

(** X2. [list_templates()] always starts with the five built-in names in
    their fixed order; the custom stems that are not built-in names follow,
    in the order in which they were loaded.  A custom file for a built-in
    name does not move or repeat that name. *)
Theorem X2_list_templates_order (dir : option md_files) :
  list_templates (init dir)
  = ["story"; "bug"; "task"; "spike"; "epic"]
    ++ filter (λ k, k ∉ ["story"; "bug"; "task"; "spike"; "epic"])
         (keys (custom_templates (init dir))).
Proof.
  unfold list_templates, get_all_templates.
  rewrite keys_update by apply NoDup_custom_keys. reflexivity.
Qed.

(** X3. [get_template] does not see the case of its argument: the
    upper-cased and the lower-cased spelling of an issue type get the same
    answer as the issue type itself. *)
Theorem X3_get_template_ignores_case (self : TemplateManager) (issue_type : string) :
  get_template self (upper issue_type) = get_template self issue_type
  ∧ get_template self (lower issue_type) = get_template self issue_type.
Proof.
  rewrite !get_template_eq. by rewrite lower_upper, lower_lower.
Qed.

(** X4. The first custom file that cannot be read ends the loading: the
    files listed after it are not loaded, readable or not, and the manager
    is the one obtained from the files listed before it. *)
Theorem X4_unreadable_file_ends_loading (pre post : md_files) (stem : string) :
  init (Some (pre ++ (stem, None) :: post)) = init (Some pre).
Proof.
  unfold init, _load_custom_templates. by rewrite load_loop_stop.
Qed.

(** X5. For a key of ASCII characters without capitals, [get_template]
    returns what [get_all_templates()] holds under that key; in particular
    it returns [None] exactly when the key is not in [list_templates()]. *)
Theorem X5_get_template_agrees_with_listing (dir : option md_files) (k : string) :
  ascii_only k = true →
  has_upper k = false →
  get_template (init dir) k = get k (get_all_templates (init dir))
  ∧ (get_template (init dir) k = None ↔ k ∉ list_templates (init dir)).
Proof.
  intros _ Hk.
  assert (E : get_template (init dir) k = get k (get_all_templates (init dir))).
  { rewrite get_template_eq, lower_id by done.
    destruct (get k (custom_templates (init dir))) eqn:Hc.
    - symmetry. by apply get_all_templates_custom.
    - unfold get_all_templates. by rewrite get_update_absent. }
  split; [exact E|]. rewrite E. unfold list_templates.
  rewrite in_keys_get, <- eq_None_not_Some. done.
Qed.

Lemma X5_get_template_agrees_with_listing_witness :
  let dir := Some [("release", Some "## Release notes")] in
  (ascii_only "release" = true ∧ has_upper "release" = false)
  ∧ get_template (init dir) "release" = get "release" (get_all_templates (init dir))
  ∧ (get_template (init dir) "release" = None
     ↔ "release" ∉ list_templates (init dir)).
Proof.
  intros dir.
  assert (H0 : ascii_only "release" = true) by reflexivity.
  assert (H : has_upper "release" = false) by reflexivity.
  split; [by split|].
  exact (X5_get_template_agrees_with_listing dir "release" H0 H).
Defined.

End TemplatesMore.
(* ===================================================================== *)
(** ** Further properties of the adapter *)
(* ===================================================================== *)

Module JiraClientMore.
Import PyStr PyStrFacts Py JiraClient JiraClientFacts Obs TemplatesMore.

Lemma lower_capitalize s : lower (capitalize s) = lower s.
Proof.
  destruct s as [|c r]; simpl; [done|].
  by rewrite lower_char_upper_char, lower_lower.
Qed.

Lemma capitalize_capitalize s : capitalize (capitalize s) = capitalize s.
Proof.
  destruct s as [|c r]; simpl; [done|].
  by rewrite upper_char_upper_char, lower_lower.
Qed.

Lemma capitalize_lower_eq a b : lower a = lower b → capitalize a = capitalize b.
Proof.
  destruct a as [|c r], b as [|d q]; simpl; try done.
  intros [= Hc Hr]. rewrite Hr. f_equal.
  by rewrite <- (upper_char_lower_char c), Hc, upper_char_lower_char.
Qed.

(** The wrapping of errors by the [try] of an operation. *)
Lemma try_except_wrapped {A} (m : M (list call) A) (prefix : string) log e log' :
  try_except m (λ e, raise (Exception (prefix +:+ str_exn e))) log = (inl e, log') →
  ∃ cause, e = Exception (prefix +:+ cause).
Proof.
  unfold try_except, raise. destruct (m log) as [[e0|a] l]; [|done].
  intros [= <- _]. by eexists.
Qed.

Lemma for_each_issue_info self url issues log :
  config self !! "jira_url" = Some url →
  for_each (issue_info self) issues log = (inr (map (to_info url) issues), log).
Proof.
  intros Hu. induction issues as [|i r IH]; [done|].
  cbn [for_each map]. unfold bind at 1.
  unfold issue_info at 1, get_issue_url, getitem, bind at 1.
  rewrite Hu. cbn. unfold bind. by rewrite IH.
Qed.

(** X6. A client that [JiraClientWrapper()] has built holds the content
    of the configuration file, which names the server; the construction
    made exactly one library call, the constructor for that server; and
    [get_issue_url] on such a client never raises: it returns the server
    address, [/browse/] and the key, in any state and without changing
    it. *)
Theorem X6_built_client_has_server env log client log' :
  JiraClient.init env log = (inr client, log') →
  config_file env = Some (config client)
  ∧ log' = log ++ [CallJIRA (jira client)]
  ∧ ∃ url,
      config client !! "jira_url" = Some url
      ∧ options_server (jira client) = url
      ∧ ∀ (St : Type) (issue_key : string) (s : St),
          get_issue_url client issue_key s
          = (inr (url +:+ "/browse/" +:+ issue_key), s).
Proof.
  unfold JiraClient.init, _load_config, bind.
  destruct (config_file env) as [cfg|]; cbn; [|done].
  destruct (cfg !! "jira_url") as [url|] eqn:Hu.
  - rewrite (connect_preferred _ _ _ url Hu).
    destruct (preferred_auth cfg) as [a|]; cbn; [|done].
    destruct (lib_JIRA _ _ _) as [e|[]]; cbn; [done|].
    intros [= <- <-]. cbn. split_and!; try done.
    exists url. split_and!; try done.
    intros St issue_key s. unfold get_issue_url, bind, getitem. cbn.
    by rewrite Hu.
  - by rewrite connect_no_server.
Qed.

Lemma X6_built_client_has_server_witness :
  let env := example_env (Some example_config) (inr []) in
  JiraClient.init env [] = (inr example_client, [CallJIRA (jira example_client)])
  ∧ config_file env = Some (config example_client)
  ∧ [CallJIRA (jira example_client)] = [] ++ [CallJIRA (jira example_client)]
  ∧ ∃ url,
      config example_client !! "jira_url" = Some url
      ∧ options_server (jira example_client) = url
      ∧ ∀ (St : Type) (issue_key : string) (s : St),
          get_issue_url example_client issue_key s
          = (inr (url +:+ "/browse/" +:+ issue_key), s).
Proof.
  intros env.
  assert (H : JiraClient.init env []
              = (inr example_client, [CallJIRA (jira example_client)]))
    by reflexivity.
  split; [exact H|].
  exact (X6_built_client_has_server env [] example_client _ H).
Defined.

Lemma init_calls env log :
  (JiraClient.init env log).2 = log
  ∨ ∃ args, (JiraClient.init env log).2 = log ++ [CallJIRA args].
Proof.
  unfold JiraClient.init, _load_config, bind.
  destruct (config_file env) as [cfg|]; cbn; [|by left].
  destruct (cfg !! "jira_url") as [url|] eqn:Hu.
  - rewrite (connect_preferred _ _ _ url Hu).
    destruct (preferred_auth cfg) as [a|]; cbn; [|by left].
    right. eexists. by destruct (lib_JIRA _ _ _) as [e|[]].
  - rewrite connect_no_server by done. by left.
Qed.

Lemma init_success_log env log client log' :
  JiraClient.init env log = (inr client, log') →
  log' = log ++ [CallJIRA (jira client)].
Proof.
  unfold JiraClient.init, _load_config, bind.
  destruct (config_file env) as [cfg|]; cbn; [|done].
  destruct (cfg !! "jira_url") as [url|] eqn:Hu.
  - rewrite (connect_preferred _ _ _ url Hu).
    destruct (preferred_auth cfg) as [a|]; cbn; [|done].
    destruct (lib_JIRA _ _ _) as [e|[]]; cbn; [done|].
    by intros [= <- <-].
  - by rewrite connect_no_server.
Qed.

(** X7. [JiraClientWrapper()] makes at most one library call, and that
    call is the constructor.  When the configuration file is missing it
    raises [FileNotFoundError] and makes no call at all. *)
Theorem X7_construction_calls env log :
  ((JiraClient.init env log).2 = log
   ∨ ∃ args, (JiraClient.init env log).2 = log ++ [CallJIRA args])
  ∧ (config_file env = None →
     ∃ msg, JiraClient.init env log = (inl (FileNotFoundError msg), log)).
Proof.
  split; [apply init_calls|].
  unfold JiraClient.init, _load_config, bind. intros ->. by eexists.
Qed.

Lemma X7_construction_calls_witness :
  let env := example_env None (inr []) in
  config_file env = None
  ∧ ∃ msg, JiraClient.init env [] = (inl (FileNotFoundError msg), []).
Proof.
  intros env. split; [reflexivity|].
  exact (proj2 (X7_construction_calls env []) eq_refl).
Defined.

(** X8. Whatever authentication is chosen, a [proxy] entry of the
    configuration is passed to the constructor for both [http] and
    [https], and no proxies are passed without it; update checks are
    always off; the server information is not fetched exactly when the
    token is used. *)
Theorem X8_connection_options env config log server :
  config !! "jira_url" = Some server →
  (0 < shape_count config)%nat →
  ∃ args,
    (_connect env config log).2 = log ++ [CallJIRA args]
    ∧ proxies args
      = (λ p, ({[ "http" := p; "https" := p ]} : gmap string string))
          <$> (config !! "proxy")
    ∧ options_check_update args = false
    ∧ (get_server_info args = false ↔ is_Some (config !! "token")).
Proof.
  intros Hs Hn. destruct (shape_count_pos config Hn) as [a Ha].
  rewrite (connect_preferred _ _ _ server Hs), Ha. cbn.
  eexists. split; [reflexivity|]. cbn. split_and!.
  - by destruct (config !! "proxy").
  - done.
  - unfold preferred_auth in Ha.
    destruct (config !! "token") as [t|].
    + injection Ha as <-. split; [by eexists | done].
    + split; [|by intros [? ?]]. intros Hf. exfalso.
      destruct (config !! "email"), (config !! "api_token"),
        (config !! "username"), (config !! "password");
        try discriminate; injection Ha as <-; discriminate.
Qed.

Lemma X8_connection_options_witness :
  let config : gmap string string :=
    {[ "jira_url" := "https://jira.example.com"; "username" := "alice";
       "password" := "secret"; "proxy" := "http://proxy:3128" ]} in
  let env := example_env None (inr []) in
  (config !! "jira_url" = Some "https://jira.example.com"
   ∧ (0 < shape_count config)%nat)
  ∧ ∃ args,
      (_connect env config []).2 = [] ++ [CallJIRA args]
      ∧ proxies args
        = (λ p, ({[ "http" := p; "https" := p ]} : gmap string string))
            <$> (config !! "proxy")
      ∧ options_check_update args = false
      ∧ (get_server_info args = false ↔ is_Some (config !! "token")).
Proof.
  intros config env.
  assert (H1 : config !! "jira_url" = Some "https://jira.example.com")
    by reflexivity.
  assert (H2 : (0 < shape_count config)%nat) by (vm_compute; lia).
  split; [by split|].
  exact (X8_connection_options env config [] _ H1 H2).
Defined.

(** X9. The five remote operations raise nothing but the uniform error:
    whatever goes wrong inside one of them (the library call, or the
    building of the result), the exception that leaves it is an
    [Exception] whose message is the operation's own prefix followed by
    the cause. *)
Theorem X9_uniform_errors env self log e log' :
  (∀ project issue_type summary description priority assignee,
     create_issue env self project issue_type summary description
       priority assignee log = (inl e, log') →
     ∃ cause, e = Exception ("Failed to create Jira issue: " +:+ cause))
  ∧ (get_projects env self log = (inl e, log') →
     ∃ cause, e = Exception ("Failed to get Jira projects: " +:+ cause))
  ∧ (∀ query project max_results,
       search_issues env self query project max_results log = (inl e, log') →
       ∃ cause, e = Exception ("Failed to search Jira issues: " +:+ cause))
  ∧ (∀ issue_key,
       get_issue env self issue_key log = (inl e, log') →
       ∃ cause, e = Exception ("Failed to get Jira issue " +:+ issue_key
                               +:+ ": " +:+ cause))
  ∧ (∀ project_key,
       get_project_metadata env self project_key log = (inl e, log') →
       ∃ cause, e = Exception ("Failed to get project metadata: " +:+ cause)).
Proof.
  split_and!; intros.
  - by eapply try_except_wrapped.
  - by eapply try_except_wrapped.
  - by eapply try_except_wrapped.
  - unfold get_issue in *.
    match goal with H : try_except ?m _ _ = _ |- _ =>
      revert H; unfold try_except, raise; destruct (m log) as [[e0|a] l];
      [|done]; intros [= <- _] end.
    by exists (str_exn e0).
  - by eapply try_except_wrapped.
Qed.

Lemma X9_uniform_errors_witness :
  let env := example_env (Some example_config) (inl (LibraryError "timeout")) in
  let e := Exception ("Failed to search Jira issues: " +:+ "timeout") in
  let log' := [CallSearchIssues (search_jql "login" None) 10 search_fields] in
  search_issues env example_client "login" None 10 [] = (inl e, log')
  ∧ ∃ cause, e = Exception ("Failed to search Jira issues: " +:+ cause).
Proof.
  intros env e log'.
  assert (H : search_issues env example_client "login" None 10 [] = (inl e, log'))
    by reflexivity.
  split; [exact H|].
  exact (proj1 (proj2 (proj2 (X9_uniform_errors env example_client [] e log')))
           "login" None 10 H).
Defined.

(** X10. When the library search succeeds on a client whose
    configuration names the server, [search_issues] returns one dictionary
    per issue found, in the order found: a missing description becomes
    the empty string, a missing priority or assignee stays [None], and the
    address is the server address, [/browse/] and the key.  Nothing but
    the search is asked of the library. *)
Theorem X10_search_results env self query project max_results log url issues :
  config self !! "jira_url" = Some url →
  lib_search_issues env log (search_jql query project) max_results search_fields
  = inr issues →
  search_issues env self query project max_results log
  = (inr (map (to_info url) issues),
     log ++ [CallSearchIssues (search_jql query project) max_results search_fields]).
Proof.
  intros Hu Hs. unfold search_issues, try_except, bind, invoke.
  rewrite Hs. by rewrite (for_each_issue_info _ url).
Qed.

Lemma X10_search_results_witness :
  let issue :=
    {| key := "PROJ-7";
       fields := {| summary := "Login fails"; issuetype_name := "Bug";
                    status_name := "Open"; priority_name := None;
                    description := None; assignee_displayName := None |} |} in
  let env := example_env (Some example_config) (inr [issue]) in
  (config example_client !! "jira_url" = Some "https://jira.example.com"
   ∧ lib_search_issues env [] (search_jql "login" None) 10 search_fields
     = inr [issue])
  ∧ search_issues env example_client "login" None 10 []
    = (inr (map (to_info "https://jira.example.com") [issue]),
       [] ++ [CallSearchIssues (search_jql "login" None) 10 search_fields]).
Proof.
  intros issue env.
  assert (H1 : config example_client !! "jira_url"
               = Some "https://jira.example.com") by reflexivity.
  assert (H2 : lib_search_issues env [] (search_jql "login" None) 10
                 search_fields = inr [issue]) by reflexivity.
  split; [by split|].
  exact (X10_search_results env example_client "login" None 10 [] _ _ H1 H2).
Defined.

(** X11. The payload of [create_issue] carries the project key, the
    summary and the description as given, and holds no name other than
    [project], [summary], [description], [issuetype], [priority] and
    [assignee]; the operation returns the key of the issue the library
    answers with. *)
Theorem X11_payload_core env self project issue_type summary description
    priority assignee log :
  let payload :=
    issue_dict project issue_type summary description priority assignee in
  payload !! "project" = Some (FDict {[ "key" := project ]})
  ∧ payload !! "summary" = Some (FStr summary)
  ∧ payload !! "description" = Some (FStr description)
  ∧ dom payload ⊆ payload_keys
  ∧ ∀ issue, lib_create_issue env log payload = inr issue →
      create_issue env self project issue_type summary description
        priority assignee log
      = (inr (key issue), log ++ [CallCreateIssue payload]).
Proof.
  intros payload. subst payload. split_and!.
  - unfold issue_dict.
    destruct priority as [[|? ?]|], assignee as [[|? ?]|]; simpl;
      by simplify_map_eq.
  - unfold issue_dict.
    destruct priority as [[|? ?]|], assignee as [[|? ?]|]; simpl;
      by simplify_map_eq.
  - unfold issue_dict.
    destruct priority as [[|? ?]|], assignee as [[|? ?]|]; simpl;
      by simplify_map_eq.
  - unfold issue_dict, payload_keys.
    destruct priority as [[|? ?]|], assignee as [[|? ?]|]; simpl;
      rewrite ?dom_insert_L, ?dom_singleton_L; set_unfold; tauto.
  - intros issue Hi. unfold create_issue, try_except, bind, invoke.
    by rewrite Hi.
Qed.

Lemma X11_payload_core_witness :
  let env := example_env None (inr []) in
  let payload := issue_dict "PROJ" "bug" "s" "d" (Some "High") None in
  ∃ issue,
    lib_create_issue env [] payload = inr issue
    ∧ create_issue env example_client "PROJ" "bug" "s" "d" (Some "High") None []
      = (inr (key issue), [] ++ [CallCreateIssue payload]).
Proof.
  intros env payload. eexists. split; [reflexivity|].
  exact (proj2 (proj2 (proj2 (proj2
           (X11_payload_core env example_client "PROJ" "bug" "s" "d"
              (Some "High") None [])))) _ eq_refl).
Defined.

(** X12. The remote type name depends on the issue type only up to case:
    two spellings with the same lower-cased form are sent as the same
    name. *)
Theorem X12_issue_type_ignores_case (a b : string) :
  lower a = lower b → jira_issue_type a = jira_issue_type b.
Proof.
  intros H. unfold jira_issue_type.
  by rewrite H, (capitalize_lower_eq a b H).
Qed.

Lemma X12_issue_type_ignores_case_witness :
  lower "IMPROVEMENT" = lower "improvement"
  ∧ jira_issue_type "IMPROVEMENT" = jira_issue_type "improvement".
Proof.
  assert (H : lower "IMPROVEMENT" = lower "improvement") by reflexivity.
  split; [exact H|].
  exact (X12_issue_type_ignores_case "IMPROVEMENT" "improvement" H).
Defined.

(** X13. For an issue type of ASCII characters the remote type name is
    stable: mapping a name that is already the result of the mapping gives
    the same name again. *)
Theorem X13_issue_type_stable (issue_type : string) :
  ascii_only issue_type = true →
  jira_issue_type (jira_issue_type issue_type) = jira_issue_type issue_type.
Proof.
  intros _. rewrite (jira_issue_type_spec issue_type).
  unfold spec_remote_type_name. rewrite <- lower_table, <- capitalize_table.
  repeat case_decide; try reflexivity.
  rewrite jira_issue_type_spec. unfold spec_remote_type_name.
  rewrite <- lower_table, <- capitalize_table.
  rewrite lower_capitalize. repeat case_decide; try done.
  apply capitalize_capitalize.
Qed.

Lemma X13_issue_type_stable_witness :
  ascii_only "subtask" = true
  ∧ jira_issue_type "subtask" = "Sub-task"
  ∧ jira_issue_type (jira_issue_type "subtask") = jira_issue_type "subtask".
Proof.
  assert (H : ascii_only "subtask" = true) by reflexivity.
  split; [exact H|]. split; [reflexivity|].
  exact (X13_issue_type_stable "subtask" H).
Defined.

End JiraClientMore.
(* ===================================================================== *)
(** ** Further properties of the dispatcher *)
(* ===================================================================== *)

Module ServerMore.
Import PyStr Py JiraClient JiraClientFacts Server ServerFacts Obs JiraClientMore.

(** *** How the log grows under the adapter operations *)

Lemma grows_refl log : grows_quietly log log.
Proof. exists []. split; [by rewrite app_nil_r | constructor]. Qed.

Lemma grows_one log c : is_connect c = false → grows_quietly log (log ++ [c]).
Proof. intros H. exists [c]. split; [done|]. by repeat constructor. Qed.

Lemma grows_trans l1 l2 l3 :
  grows_quietly l1 l2 → grows_quietly l2 l3 → grows_quietly l1 l3.
Proof.
  intros (c1 & -> & H1) (c2 & -> & H2). exists (c1 ++ c2).
  split; [by rewrite (assoc_L (++)) | by apply Forall_app].
Qed.

Lemma create_issue_grows env self p t s d pr a log :
  grows_quietly log (create_issue env self p t s d pr a log).2.
Proof. rewrite create_issue_log. by apply grows_one. Qed.

Lemma search_issues_grows env self q p n log :
  grows_quietly log (search_issues env self q p n log).2.
Proof. rewrite search_issues_log. by apply grows_one. Qed.

Lemma get_projects_grows env self log :
  grows_quietly log (get_projects env self log).2.
Proof.
  unfold get_projects, try_except, bind, invoke.
  destruct (lib_projects env log); by apply grows_one.
Qed.

Lemma issue_info_log self issue log : (issue_info self issue log).2 = log.
Proof.
  unfold issue_info, get_issue_url, getitem, bind.
  by destruct (config self !! "jira_url").
Qed.

Lemma get_issue_grows env self k log :
  grows_quietly log (get_issue env self k log).2.
Proof.
  unfold get_issue, try_except, bind, invoke.
  destruct (lib_issue env log k) as [e|issue]; cbn; [by apply grows_one|].
  pose proof (issue_info_log self issue (log ++ [CallIssue k])) as H.
  destruct (issue_info self issue _) as [[e|i] l]; cbn in *; subst l;
    by apply grows_one.
Qed.

Lemma get_project_metadata_grows env self k log :
  grows_quietly log (get_project_metadata env self k log).2.
Proof.
  unfold get_project_metadata, try_except, bind, invoke.
  destruct (lib_project env log k) as [e|p]; cbn; [by apply grows_one|].
  destruct (lib_priorities env _) as [e|ps]; cbn.
  { eapply grows_trans; by apply grows_one. }
  destruct (lib_issue_types env _) as [e|ts]; cbn;
    (eapply grows_trans; [|by apply grows_one]);
    (eapply grows_trans; by apply grows_one).
Qed.

(** *** Quiet computations *)

Lemma quiet_step_refl st : quiet_step st st.
Proof. split; [done | apply grows_refl]. Qed.

Lemma quiet_step_trans s1 s2 s3 :
  quiet_step s1 s2 → quiet_step s2 s3 → quiet_step s1 s3.
Proof.
  intros [E1 G1] [E2 G2]. split; [congruence|].
  by apply (grows_trans _ (log s2)).
Qed.

Lemma quiet_ret {A} (a : A) : quiet (ret a).
Proof. intros st. apply quiet_step_refl. Qed.

Lemma quiet_raise {A} e : quiet (@raise State A e).
Proof. intros st. apply quiet_step_refl. Qed.

Lemma quiet_getitem {V} (d : gmap string V) k : quiet (getitem d k).
Proof. intros st. unfold getitem. destruct (d !! k); apply quiet_step_refl. Qed.

Lemma quiet_bind {A B} (m : M State A) (k : A → M State B) :
  quiet m → (∀ a, quiet (k a)) → quiet (bind m k).
Proof.
  intros Hm Hk st. unfold bind. specialize (Hm st).
  destruct (m st) as [[e|a] st1]; cbn in *; [done|].
  eapply quiet_step_trans; [exact Hm | apply Hk].
Qed.

Lemma quiet_on_log {A} (m : M (list call) A) :
  (∀ log, grows_quietly log (m log).2) → quiet (on_log m).
Proof.
  intros Hm st. unfold on_log. specialize (Hm (log st)).
  destruct (m (log st)) as [r l]. by split.
Qed.

Lemma quiet_get_issue_url self k : quiet (get_issue_url self k).
Proof.
  apply quiet_bind; [apply quiet_getitem | intros; apply quiet_ret].
Qed.

(** *** The steps of a tool call *)

Lemma quiet_tool_step s1 s2 : quiet_step s1 s2 → tool_step s1 s2.
Proof.
  intros [E (calls & Hl & Hn)]. split; [by rewrite E|].
  exists calls. split; [done|]. left. by rewrite E.
Qed.

Lemma tool_step_quiet s1 s2 s3 :
  tool_step s1 s2 → quiet_step s2 s3 → tool_step s1 s3.
Proof.
  intros [T (c1 & L1 & H1)] [E (c2 & L2 & H2)].
  split; [by rewrite E|]. exists (c1 ++ c2).
  split; [by rewrite L2, L1, (assoc_L (++))|].
  destruct H1 as [[Hc Hn]|(Hc & args & rest & -> & Hn)].
  - left. split; [by rewrite E | by apply Forall_app].
  - right. split; [done|]. exists args, (rest ++ c2).
    split; [done | by apply Forall_app].
Qed.

(** What obtaining the client does to the state. *)
Lemma ensure_client_step env st :
  tool_step st (ensure_client env st).2
  ∧ (∀ client, (ensure_client env st).1 = inr client →
       jira_client (server (ensure_client env st).2) = Some client)
  ∧ (∀ e, (ensure_client env st).1 = inl e →
       jira_client (server st) = None
       ∧ jira_client (server (ensure_client env st).2) = None).
Proof.
  unfold ensure_client.
  destruct (jira_client (server st)) as [c|] eqn:Hc; cbn.
  - split_and!; [apply quiet_tool_step, quiet_step_refl | congruence | done].
  - pose proof (init_calls env (log st)) as Hi.
    destruct (JiraClient.init env (log st)) as [[e|c] l] eqn:Hinit; cbn in *.
    + split_and!; [|done|done].
      split; [done|]. destruct Hi as [->|[args ->]].
      * exists []. split; [by rewrite app_nil_r|]. left. split; [done|constructor].
      * exists [CallJIRA args]. split; [done|]. right. split; [done|].
        exists args, []. split; [done|constructor].
    + split_and!; [|congruence|done].
      split; [done|]. rewrite (init_success_log _ _ _ _ Hinit).
      exists [CallJIRA (jira c)]. split; [done|]. right. split; [done|].
      exists (jira c), []. split; [done|constructor].
Qed.

Lemma after_client {A} env (k : JiraClientWrapper → M State A) st :
  (∀ client, quiet (k client)) →
  tool_step st (bind (ensure_client env) k st).2.
Proof.
  intros Hk. unfold bind.
  destruct (ensure_client_step env st) as (Hs & _ & _).
  destruct (ensure_client env st) as [[e|c] st1]; cbn in *; [done|].
  eapply tool_step_quiet; [exact Hs | apply Hk].
Qed.

Ltac quiet_tac :=
  repeat first
    [ apply quiet_ret
    | apply quiet_raise
    | apply quiet_getitem
    | apply quiet_get_issue_url
    | apply quiet_on_log; intros;
      first [ apply create_issue_grows | apply search_issues_grows
            | apply get_projects_grows | apply get_issue_grows
            | apply get_project_metadata_grows ]
    | apply quiet_bind; [|intros ?]
    | match goal with |- quiet (match ?x with _ => _ end) => destruct x end ].

Lemma validate_state env args st : (validate env args st).2 = st.
Proof.
  unfold validate.
  by destruct (str_args args !! "project"), (str_args args !! "issue_type"),
    (str_args args !! "summary"), (str_args args !! "description").
Qed.

Lemma templates_state args st : (_get_issue_templates args st).2 = st.
Proof.
  unfold _get_issue_templates, bind, get_template_manager. cbn.
  destruct (truthy_opt (str_args args !! "issue_type")); [|done].
  by destruct (truthy_opt _).
Qed.

(** Every handler of the table makes a tool step. *)
Lemma dispatch_step env tool args st :
  tool_step st (dispatch env tool args st).2.
Proof.
  unfold dispatch.
  destruct (decide (tool ∈ tool_names)) as [Hin|Hout].
  2:{ rewrite handlers_unknown by done. apply quiet_tool_step, quiet_step_refl. }
  unfold tool_names in Hin. cbn in Hin.
  repeat (apply elem_of_cons in Hin as [->|Hin]);
    [..|by apply elem_of_nil in Hin].
  - change (tool_step st (_get_issue_templates args st).2).
    rewrite templates_state. apply quiet_tool_step, quiet_step_refl.
  - change (tool_step st (_create_jira_issue env args st).2).
    unfold _create_jira_issue. unfold bind at 1.
    pose proof (validate_state env args st) as Hv.
    destruct (validate env args st) as [[e|input] st1]; cbn in Hv; subst st1.
    + apply quiet_tool_step, quiet_step_refl.
    + apply after_client. intros c. quiet_tac.
  - change (tool_step st (_get_jira_projects env args st).2).
    apply after_client. intros c. quiet_tac.
  - change (tool_step st (_search_jira_issues env args st).2).
    apply after_client. intros c. quiet_tac.
  - change (tool_step st (_get_jira_issue env args st).2).
    apply after_client. intros c. quiet_tac.
  - change (tool_step st (_get_project_metadata env args st).2).
    apply after_client. intros c. quiet_tac.
Qed.

Lemma call_tool_state env tool args st :
  (call_tool env tool args st).2 = (dispatch env tool args st).2.
Proof. unfold call_tool. by destruct (dispatch env tool args st) as [[e|r] st']. Qed.

Lemma bind_inr {A B} (m : M State A) (k : A → M State B) st r st' :
  bind m k st = (inr r, st') →
  ∃ a st1, m st = (inr a, st1) ∧ k a st1 = (inr r, st').
Proof.
  unfold bind. destruct (m st) as [[e|a] st1]; [done|]. by exists a, st1.
Qed.

Ltac bind_inv H :=
  repeat (apply bind_inr in H as (? & ? & _ & H)).

Ltac block_tac H :=
  bind_inv H;
  repeat match type of H with
         | context [match ?x with _ => _ end] => destruct x
         | context [if ?b then _ else _] => destruct b
         end;
  injection H as <- _; by eexists.

(** A handler that returns, returns one text block. *)
Lemma dispatch_single env tool args st response st' :
  dispatch env tool args st = (inr response, st') → single_text response.
Proof.
  unfold dispatch.
  destruct (decide (tool ∈ tool_names)) as [Hin|Hout].
  2:{ by rewrite handlers_unknown. }
  unfold tool_names in Hin. cbn in Hin.
  repeat (apply elem_of_cons in Hin as [->|Hin]);
    [..|by apply elem_of_nil in Hin].
  - change (_get_issue_templates args st = (inr response, st') → single_text response).
    unfold _get_issue_templates. intros H. block_tac H.
  - change (_create_jira_issue env args st = (inr response, st') → single_text response).
    unfold _create_jira_issue. intros H. block_tac H.
  - change (_get_jira_projects env args st = (inr response, st') → single_text response).
    unfold _get_jira_projects. intros H. block_tac H.
  - change (_search_jira_issues env args st = (inr response, st') → single_text response).
    unfold _search_jira_issues. intros H. block_tac H.
  - change (_get_jira_issue env args st = (inr response, st') → single_text response).
    unfold _get_jira_issue. intros H. block_tac H.
  - change (_get_project_metadata env args st = (inr response, st') → single_text response).
    unfold _get_project_metadata. intros H. block_tac H.
Qed.

Lemma no_connect_filter calls :
  no_connect calls → filter (λ c, is_connect c = true) calls = [].
Proof.
  induction 1 as [|c l Hc _ IH]; [done|].
  rewrite filter_cons_False; [done | congruence].
Qed.

(** X14. A tool call, whatever the tool and the arguments, never alters
    the template manager, never drops or replaces a client the server
    already has, and never removes an entry of the log of library calls. *)
Theorem X14_tool_call_keeps_server env tool args st :
  let st' := (call_tool env tool args st).2 in
  template_manager (server st') = template_manager (server st)
  ∧ (∀ client, jira_client (server st) = Some client →
       jira_client (server st') = Some client)
  ∧ ∃ calls, log st' = log st ++ calls.
Proof.
  intros st'. subst st'. rewrite call_tool_state.
  destruct (dispatch_step env tool args st) as [Ht (calls & Hl & Hc)].
  split_and!; [done| |by exists calls].
  intros client Hs. destruct Hc as [[Hc _]|[Hc _]]; congruence.
Qed.

Lemma X14_tool_call_keeps_server_witness :
  let env := example_env (Some example_config) (inr []) in
  let st := {| server := {| template_manager := Templates.init None;
                            jira_client := Some example_client |};
               log := [CallJIRA (jira example_client)] |} in
  let args := {| str_args := {[ "query" := "login" ]}; max_results := Some 5 |} in
  jira_client (server st) = Some example_client
  ∧ jira_client (server (call_tool env "search_jira_issues" args st).2)
    = Some example_client.
Proof.
  intros env st args. split; [reflexivity|].
  exact (proj1 (proj2 (X14_tool_call_keeps_server env "search_jira_issues" args st))
           example_client eq_refl).
Defined.

(** X15. The connection is made at most once per tool call and is
    reused: the calls a tool call adds to the log hold at most one
    construction of the library client, none at all when the server
    already has a client, and when there is one it is the first call
    added. *)
Theorem X15_connection_reused env tool args st :
  ∃ calls,
    log (call_tool env tool args st).2 = log st ++ calls
    ∧ (length (filter (λ c, is_connect c = true) calls) ≤ 1)%nat
    ∧ (is_Some (jira_client (server st)) → no_connect calls)
    ∧ (¬ no_connect calls →
       ∃ args rest, calls = CallJIRA args :: rest ∧ no_connect rest).
Proof.
  rewrite call_tool_state.
  destruct (dispatch_step env tool args st) as [_ (calls & Hl & Hc)].
  exists calls. split; [done|].
  destruct Hc as [[Hc Hn]|(Hc & a & rest & -> & Hn)].
  - split_and!; [rewrite no_connect_filter by done; cbn; lia | done | done].
  - split_and!.
    + rewrite filter_cons_True by done. rewrite no_connect_filter by done.
      cbn. lia.
    + rewrite Hc. by intros [? ?].
    + intros _. by exists a, rest.
Qed.

Lemma X15_connection_reused_witness :
  let env := example_env (Some example_config) (inr []) in
  let st := {| server := {| template_manager := Templates.init None;
                            jira_client := Some example_client |};
               log := [CallJIRA (jira example_client)] |} in
  is_Some (jira_client (server st))
  ∧ ∃ calls,
      log (call_tool env "get_jira_projects" no_arguments st).2 = log st ++ calls
      ∧ no_connect calls.
Proof.
  intros env st.
  assert (H : is_Some (jira_client (server st))) by (by eexists).
  split; [exact H|].
  destruct (X15_connection_reused env "get_jira_projects" no_arguments st)
    as (calls & Hl & _ & Hn & _).
  exists calls. split; [exact Hl | exact (Hn H)].
Defined.

(** X16. The response of [call_tool] has a single shape: for every tool
    name, known or not, every argument mapping and every state, it is
    exactly one block of type [text]. *)
Theorem X16_single_text_response env tool args st :
  single_text (call_tool env tool args st).1.
Proof.
  unfold call_tool.
  destruct (dispatch env tool args st) as [[e|response] st'] eqn:E; cbn.
  - by eexists.
  - by eapply dispatch_single.
Qed.

(** X17. The tool [get_issue_templates] needs no Jira: its response does
    not depend on the configuration file or on the library, it makes no
    library call and builds no client; the state is left as it was. *)
Theorem X17_templates_tool_is_local env env' args st :
  (call_tool env "get_issue_templates" args st).2 = st
  ∧ call_tool env "get_issue_templates" args st
    = call_tool env' "get_issue_templates" args st.
Proof.
  split; [|reflexivity].
  rewrite call_tool_state. unfold dispatch.
  change (handlers env !! "get_issue_templates") with (Some _get_issue_templates).
  apply templates_state.
Qed.

(** X18. [create_jira_issue] checks its arguments before it connects:
    when one of the four required properties is missing, the response is
    the validation error and the state is untouched; no client is built
    and no library call is made, even on a server without client. *)
Theorem X18_create_validates_first env args st k :
  k ∈ create_required →
  str_args args !! k = None →
  call_tool env "create_jira_issue" args st
  = (text_block ("Error: " +:+ pydantic_message env (str_args args)), st).
Proof.
  intros Hk Hn. unfold call_tool, dispatch.
  change (handlers env !! "create_jira_issue") with (Some (_create_jira_issue env)).
  unfold _create_jira_issue, bind, validate.
  unfold create_required in Hk.
  repeat (apply elem_of_cons in Hk as [->|Hk]); [..|by apply elem_of_nil in Hk];
    rewrite Hn;
    by destruct (str_args args !! "project"), (str_args args !! "issue_type"),
      (str_args args !! "summary"), (str_args args !! "description").
Qed.

Lemma X18_create_validates_first_witness :
  let env := example_env None (inr []) in
  let args := {| str_args := {[ "project" := "PROJ"; "summary" := "s" ]};
                 max_results := None |} in
  ("description" ∈ create_required ∧ str_args args !! "description" = None)
  ∧ call_tool env "create_jira_issue" args fresh_state
    = (text_block ("Error: " +:+ pydantic_message env (str_args args)),
       fresh_state).
Proof.
  intros env args.
  assert (H1 : "description" ∈ create_required).
  { apply (bool_decide_unpack _). vm_compute. exact I. }
  assert (H2 : str_args args !! "description" = None) by reflexivity.
  split; [by split|].
  exact (X18_create_validates_first env args fresh_state "description" H1 H2).
Defined.

(** X19. The tools [search_jira_issues], [get_jira_issue] and
    [get_project_metadata] read their required argument only after the
    client is at hand: when the argument is missing, the response is
    [Error: ] followed by the quoted name of the argument, the operation
    itself is not asked of the library, and the state is the one left by
    obtaining the client (a client built on the way is kept). *)
Theorem X19_missing_argument env tool k args st client st1 :
  (tool, k) ∈ keyed_tools →
  ensure_client env st = (inr client, st1) →
  str_args args !! k = None →
  call_tool env tool args st
  = (text_block ("Error: " +:+ sq +:+ k +:+ sq), st1).
Proof.
  intros Hk Hc Hn. unfold keyed_tools in Hk.
  repeat (apply elem_of_cons in Hk as [[= -> ->]|Hk]);
    [..|by apply elem_of_nil in Hk]; unfold call_tool, dispatch.
  - change (handlers env !! "search_jira_issues") with (Some (_search_jira_issues env)).
    unfold _search_jira_issues, bind, getitem. by rewrite Hc, Hn.
  - change (handlers env !! "get_jira_issue") with (Some (_get_jira_issue env)).
    unfold _get_jira_issue, bind, getitem. by rewrite Hc, Hn.
  - change (handlers env !! "get_project_metadata")
      with (Some (_get_project_metadata env)).
    unfold _get_project_metadata, bind, getitem. by rewrite Hc, Hn.
Qed.

Lemma X19_missing_argument_witness :
  let env := example_env (Some example_config) (inr []) in
  let st1 := {| server := {| template_manager := Templates.init None;
                             jira_client := Some example_client |};
                log := [CallJIRA (jira example_client)] |} in
  (("get_jira_issue", "issue_key") ∈ keyed_tools
   ∧ ensure_client env fresh_state = (inr example_client, st1)
   ∧ str_args no_arguments !! "issue_key" = None)
  ∧ call_tool env "get_jira_issue" no_arguments fresh_state
    = (text_block ("Error: " +:+ sq +:+ "issue_key" +:+ sq), st1).
Proof.
  intros env st1.
  assert (H1 : ("get_jira_issue", "issue_key") ∈ keyed_tools).
  { apply (bool_decide_unpack _). vm_compute. exact I. }
  assert (H2 : ensure_client env fresh_state = (inr example_client, st1))
    by reflexivity.
  assert (H3 : str_args no_arguments !! "issue_key" = None) by reflexivity.
  split; [by split_and!|].
  exact (X19_missing_argument env "get_jira_issue" "issue_key" no_arguments
           fresh_state example_client st1 H1 H2 H3).
Defined.

(** X25. With a client at hand, the query present and [max_results]
    absent or convertible by [int], the tool [search_jira_issues] asks the
    library exactly one thing, whether that search succeeds or raises: a
    search with the query built from the arguments, limited to
    [int(max_results)], or to 10 when that argument is absent. *)
Theorem X25_search_asks_once env args st client st1 query :
  ensure_client env st = (inr client, st1) →
  str_args args !! "query" = Some query →
  log (call_tool env "search_jira_issues" args st).2
  = log st1
    ++ [CallSearchIssues (search_jql query (str_args args !! "project"))
          (default 10 (max_results args)) search_fields].
Proof.
  intros Hc Hq. rewrite call_tool_state. unfold dispatch.
  change (handlers env !! "search_jira_issues") with (Some (_search_jira_issues env)).
  unfold _search_jira_issues, bind at 1. rewrite Hc.
  unfold bind at 1, getitem. rewrite Hq. cbn [ret].
  unfold bind at 1, on_log.
  pose proof (search_issues_log env client query (str_args args !! "project")
                (default 10 (max_results args)) (log st1)) as Hl.
  destruct (search_issues env client query _ _ (log st1)) as [[e|issues] l];
    cbn in Hl; subst l; [done|].
  by destruct issues.
Qed.

Lemma X25_search_asks_once_witness :
  let env := example_env (Some example_config) (inr []) in
  let args := {| str_args := {[ "query" := "login"; "project" := "PROJ" ]};
                 max_results := None |} in
  let st1 := {| server := {| template_manager := Templates.init None;
                             jira_client := Some example_client |};
                log := [CallJIRA (jira example_client)] |} in
  (ensure_client env fresh_state = (inr example_client, st1)
   ∧ str_args args !! "query" = Some "login")
  ∧ log (call_tool env "search_jira_issues" args fresh_state).2
    = log st1
      ++ [CallSearchIssues (search_jql "login" (str_args args !! "project"))
            (default 10 (max_results args)) search_fields].
Proof.
  intros env args st1.
  assert (H1 : ensure_client env fresh_state = (inr example_client, st1))
    by reflexivity.
  assert (H2 : str_args args !! "query" = Some "login") by reflexivity.
  split; [by split|].
  exact (X25_search_asks_once env args fresh_state example_client st1 "login"
           H1 H2).
Defined.

(** X20. A failed connection is reported and not remembered: when the
    server has no client and the construction of the client raises, each
    of the four tools that connect first answers [Error: ] followed by
    the text of that exception, whatever its arguments; the server is
    left without client, so that the next call tries again. *)
Theorem X20_connection_failure env tool args st e log' :
  tool ∈ connect_first_tools →
  jira_client (server st) = None →
  JiraClient.init env (log st) = (inl e, log') →
  call_tool env tool args st
  = (text_block ("Error: " +:+ str_exn e),
     {| server := server st; log := log' |}).
Proof.
  intros Ht Hc Hi.
  assert (He : ensure_client env st
               = (inl e, {| server := server st; log := log' |})).
  { unfold ensure_client. by rewrite Hc, Hi. }
  unfold connect_first_tools in Ht.
  repeat (apply elem_of_cons in Ht as [->|Ht]);
    [..|by apply elem_of_nil in Ht]; unfold call_tool, dispatch.
  - change (handlers env !! "get_jira_projects") with (Some (_get_jira_projects env)).
    unfold _get_jira_projects, bind. by rewrite He.
  - change (handlers env !! "search_jira_issues") with (Some (_search_jira_issues env)).
    unfold _search_jira_issues, bind. by rewrite He.
  - change (handlers env !! "get_jira_issue") with (Some (_get_jira_issue env)).
    unfold _get_jira_issue, bind. by rewrite He.
  - change (handlers env !! "get_project_metadata")
      with (Some (_get_project_metadata env)).
    unfold _get_project_metadata, bind. by rewrite He.
Qed.

Lemma X20_connection_failure_witness :
  let config : gmap string string := {[ "email" := "a@example.com" ]} in
  let env := example_env (Some config) (inr []) in
  ("get_jira_projects" ∈ connect_first_tools
   ∧ jira_client (server fresh_state) = None
   ∧ JiraClient.init env (log fresh_state) = (inl (KeyError "jira_url"), []))
  ∧ call_tool env "get_jira_projects" no_arguments fresh_state
    = (text_block ("Error: " +:+ str_exn (KeyError "jira_url")),
       {| server := server fresh_state; log := [] |}).
Proof.
  intros config env.
  assert (H1 : "get_jira_projects" ∈ connect_first_tools).
  { apply (bool_decide_unpack _). vm_compute. exact I. }
  assert (H2 : jira_client (server fresh_state) = None) by reflexivity.
  assert (H3 : JiraClient.init env (log fresh_state)
               = (inl (KeyError "jira_url"), [])) by reflexivity.
  split; [by split_and!|].
  exact (X20_connection_failure env "get_jira_projects" no_arguments fresh_state
           _ _ H1 H2 H3).
Defined.

(** X21. The tools advertised by [list_tools] are exactly the names
    [call_tool] has a handler for. *)
Theorem X21_advertised_tools_are_handled env tool :
  tool ∈ tool_names ↔ is_Some (handlers env !! tool).
Proof.
  split; [apply handlers_known|].
  intros Hs. destruct (decide (tool ∈ tool_names)) as [|Hn]; [done|].
  rewrite handlers_unknown in Hs by done. by destruct Hs.
Qed.

(** X22. An empty custom file hides the template of its key: when the
    loading reaches a file whose stem is in lower case and whose content is
    empty, asking [get_issue_templates] for that issue type, written in
    ASCII characters of any case, answers that no template is found,
    although the stem is among the available types the answer lists, and
    although a built-in template may exist for it. *)
Theorem X22_empty_override_hides_template env pre post stem issue_type args log0 :
  Templates.all_readable pre →
  NoDup (fst <$> Templates.listing pre stem EmptyString post) →
  ascii_only issue_type = true →
  stem ≠ EmptyString →
  lower issue_type = stem →
  str_args args !! "issue_type" = Some issue_type →
  let st := {| server := Server.init
                           (Some (Templates.listing pre stem EmptyString post));
               log := log0 |} in
  let tm := template_manager (server st) in
  call_tool env "get_issue_templates" args st
  = (text_block ("No template found for issue type: " +:+ issue_type
                 +:+ nl +:+ nl +:+ "Available types: "
                 +:+ join ", " (Templates.list_templates tm)), st)
  ∧ stem ∈ Templates.list_templates tm.
Proof.
  intros Hr Hnd _ Hne Hl Ha st tm.
  assert (Hc : PyDict.get stem (Templates.custom_templates tm) = Some EmptyString)
    by (by apply TemplatesFacts.custom_lookup).
  split.
  - unfold call_tool, dispatch.
    change (handlers env !! "get_issue_templates") with (Some _get_issue_templates).
    unfold _get_issue_templates, bind, get_template_manager. cbn [fst snd].
    rewrite Ha. cbn [default].
    assert (Ht : truthy_opt (Some issue_type) = true).
    { destruct issue_type; [by subst stem|done]. }
    rewrite Ht.
    change (template_manager (server st)) with tm.
    unfold id. rewrite !TemplatesFacts.get_template_eq, Hl, Hc. done.
  - apply PyDictFacts.in_keys_get. exists EmptyString.
    by apply TemplatesFacts.get_all_templates_custom.
Qed.

Lemma X22_empty_override_hides_template_witness :
  let env := example_env None (inr []) in
  let args := {| str_args := {[ "issue_type" := "Bug" ]}; max_results := None |} in
  let st := {| server := Server.init
                           (Some (Templates.listing [] "bug" EmptyString []));
               log := [] |} in
  let tm := template_manager (server st) in
  call_tool env "get_issue_templates" args st
  = (text_block ("No template found for issue type: " +:+ "Bug"
                 +:+ nl +:+ nl +:+ "Available types: "
                 +:+ join ", " (Templates.list_templates tm)), st)
  ∧ "bug" ∈ Templates.list_templates tm.
Proof.
  intros env args.
  assert (H1 : Templates.all_readable []) by constructor.
  assert (H2 : NoDup (fst <$> Templates.listing [] "bug" EmptyString [])).
  { apply (bool_decide_unpack _). vm_compute. exact I. }
  assert (H3 : ascii_only "Bug" = true) by reflexivity.
  assert (H4 : "bug" ≠ EmptyString) by discriminate.
  assert (H5 : lower "Bug" = "bug") by reflexivity.
  assert (H6 : str_args args !! "issue_type" = Some "Bug") by reflexivity.
  exact (X22_empty_override_hides_template env [] [] "bug" "Bug" args []
           H1 H2 H3 H4 H5 H6).
Defined.

End ServerMore.

(* ===================================================================== *)
(** ** Properties of the prompt of the launcher *)
(* ===================================================================== *)

Module CliMore.
Import PyStr Py Cli.

(** X23. With an explicit, non-empty project on the command line, a
    configuration file that is missing or is a JSON object plays no part:
    the prompt is the one built without any file.  A file that cannot be
    read or parsed still makes [build_initial_prompt] raise, because the
    file is read before the project is looked at. *)
Theorem X23_explicit_project_and_config (file : ConfigFile) (args : Args) :
  truthy_opt (project args) = true →
  match file with
  | BrokenConfig e => build_initial_prompt_from file args = inl e
  | _ => build_initial_prompt_from file args
         = inr (build_initial_prompt None args)
  end.
Proof.
  intros H. destruct file as [|e|config]; cbn; try done.
  f_equal. unfold build_initial_prompt. by rewrite H.
Qed.

Lemma X23_explicit_project_and_config_witness :
  let args := {| project := Some "OTHER"; text := Some "Fix login" |} in
  truthy_opt (project args) = true
  ∧ build_initial_prompt_from (ConfigObject {[ "default_project" := "MINE" ]}) args
    = inr (build_initial_prompt None args)
  ∧ build_initial_prompt_from (BrokenConfig (ValueError "Expecting value")) args
    = inl (ValueError "Expecting value").
Proof.
  intros args.
  assert (H : truthy_opt (project args) = true) by reflexivity.
  split; [exact H|]. split.
  - exact (X23_explicit_project_and_config
             (ConfigObject {[ "default_project" := "MINE" ]}) args H).
  - exact (X23_explicit_project_and_config
             (BrokenConfig (ValueError "Expecting value")) args H).
Defined.

(** X24. Without an explicit project (none, or the empty string), the
    prompt names the [default_project] of the configuration file as it
    is, and [PROJ] when the file or the entry is missing; the sentence
    naming the project always opens the prompt. *)
Theorem X24_default_project_fallback
    (config : option (gmap string string)) (args : Args) :
  truthy_opt (project args) = false →
  ∃ rest,
    build_initial_prompt config args
    = "I need to create a Jira issue in project "
      +:+ default "PROJ" (config ≫= (.!! "default_project")) +:+ "." +:+ rest.
Proof.
  intros H. unfold build_initial_prompt. rewrite H.
  assert (E : match config with
              | Some config => default "PROJ" (config !! "default_project")
              | None => "PROJ"
              end = default "PROJ" (config ≫= (.!! "default_project")))
    by (by destruct config).
  rewrite E. generalize (default "PROJ" (config ≫= (.!! "default_project"))).
  intros p. destruct (truthy_opt (text args)); cbn [app join];
    rewrite !JiraClientFacts.app_assoc3; eexists; reflexivity.
Qed.

Lemma X24_default_project_fallback_witness :
  let args := {| project := Some EmptyString; text := None |} in
  let config : option (gmap string string) :=
    Some {[ "default_project" := "MINE" ]} in
  truthy_opt (project args) = false
  ∧ ∃ rest,
      build_initial_prompt config args
      = "I need to create a Jira issue in project "
        +:+ default "PROJ" (config ≫= (.!! "default_project")) +:+ "." +:+ rest.
Proof.
  intros args config.
  assert (H : truthy_opt (project args) = false) by reflexivity.
  split; [exact H|].
  exact (X24_default_project_fallback config args H).
Defined.

End CliMore.
